(** * Letterbox sensor firmware: calibration sketch and LoRaWAN sensor node

    A shallow embedding of the two Arduino sketches
    [calibrate/src/main.cpp] and [letterbox_sensor/src/main.cpp].

    The target is an 8-bit AVR (ATtiny): [unsigned int] is 16 bits wide,
    [uint8_t] is 8 bits wide.  Integers are modelled as [Z] with the
    wrap-around of each C type written out.  Calls into the Arduino core
    and into the radio and sleep drivers are modelled as operations of a
    state monad over a machine that holds the output pin levels, a log of
    every external call in program order, and the values the environment
    will hand back to the next calls. *)

From Stdlib Require Import ZArith Lia.
From stdpp Require Import base list gmap.

Local Open Scope Z_scope.

(** ** C integer types of the AVR target *)

(** Conversion to [unsigned int] (16 bits). *)
Definition to_unsigned_int (z : Z) : Z := z mod 2 ^ 16.

(** Conversion to [uint8_t]. *)
Definition to_uint8_t (z : Z) : Z := z mod 2 ^ 8.

(** ** Machine state and external calls *)

Definition HIGH : bool := true.
Definition LOW : bool := false.

Inductive Mode : Type := INPUT | OUTPUT | INPUT_PULLUP.

(** One entry per call that leaves the sketch, with the value handed back
    where there is one. *)
Inductive Event : Type :=
| EPinMode (pin : Z) (mode : Mode)
| EDigitalWrite (pin : Z) (level : bool)
| EDelay (ms : Z)
| EAnalogRead (pin : Z) (value : Z)
| ECheckAction (due : bool)
| EGetVoltage (value : Z)
| ERFM_Temp (value : Z)
| ESetSleeptime (ticks : Z)
| EGotoSleep
| ERfmInit
| ESetKeys
| ESend_Data (Data : list Z) (Data_Length : Z) (Frame_Counter : Z).

(** [G] is the record of the sketch's global variables. The four streams
    are the environment: what the k-th next call of [analogRead],
    [at.checkAction], [at.getVoltage] and [rfm.RFM_Temp] will return. *)
Record Machine (G : Type) : Type := mkMachine {
  globals : G;
  pins : gmap Z bool;
  log : list Event;
  adc : nat -> Z;
  action : nat -> bool;
  voltage : nat -> Z;
  temperature : nat -> Z
}.

Arguments mkMachine {G}.
Arguments globals {G}.
Arguments pins {G}.
Arguments log {G}.
Arguments adc {G}.
Arguments action {G}.
Arguments voltage {G}.
Arguments temperature {G}.

Definition M (G A : Type) : Type := Machine G -> A * Machine G.

#[global] Instance M_ret {G} : MRet (M G) := fun A a m => (a, m).
#[global] Instance M_bind {G} : MBind (M G) :=
  fun A B f c m => let '(a, m') := c m in f a m'.

Definition exec {G A} (c : M G A) (m : Machine G) : Machine G := snd (c m).
Definition eval {G A} (c : M G A) (m : Machine G) : A := fst (c m).

Section Arduino.
Context {G : Type}.

Definition emit (e : Event) (m : Machine G) : Machine G :=
  mkMachine (globals m) (pins m) (log m ++ [e])
            (adc m) (action m) (voltage m) (temperature m).

Definition set_pin (pin : Z) (level : bool) (m : Machine G) : Machine G :=
  mkMachine (globals m) (<[pin := level]> (pins m)) (log m)
            (adc m) (action m) (voltage m) (temperature m).

Definition set_globals (g : G) (m : Machine G) : Machine G :=
  mkMachine g (pins m) (log m)
            (adc m) (action m) (voltage m) (temperature m).

Definition next_adc (m : Machine G) : Machine G :=
  mkMachine (globals m) (pins m) (log m)
            (fun k => adc m (S k)) (action m) (voltage m) (temperature m).

Definition next_action (m : Machine G) : Machine G :=
  mkMachine (globals m) (pins m) (log m)
            (adc m) (fun k => action m (S k)) (voltage m) (temperature m).

Definition next_voltage (m : Machine G) : Machine G :=
  mkMachine (globals m) (pins m) (log m)
            (adc m) (action m) (fun k => voltage m (S k)) (temperature m).

Definition next_temperature (m : Machine G) : Machine G :=
  mkMachine (globals m) (pins m) (log m)
            (adc m) (action m) (voltage m) (fun k => temperature m (S k)).

(** Arduino core *)
Definition pinMode (pin : Z) (mode : Mode) : M G unit :=
  fun m => (tt, emit (EPinMode pin mode) m).

Definition digitalWrite (pin : Z) (level : bool) : M G unit :=
  fun m => (tt, emit (EDigitalWrite pin level) (set_pin pin level m)).

Definition delay (ms : Z) : M G unit :=
  fun m => (tt, emit (EDelay ms) m).

Definition analogRead (pin : Z) : M G Z :=
  fun m => let v := adc m 0%nat in (v, emit (EAnalogRead pin v) (next_adc m)).

(** Sleep driver [at] *)
Definition setSleeptime (ticks : Z) : M G unit :=
  fun m => (tt, emit (ESetSleeptime ticks) m).

Definition gotoSleep : M G unit :=
  fun m => (tt, emit EGotoSleep m).

Definition checkAction : M G bool :=
  fun m => let b := action m 0%nat in (b, emit (ECheckAction b) (next_action m)).

Definition getVoltage : M G Z :=
  fun m => let v := voltage m 0%nat in (v, emit (EGetVoltage v) (next_voltage m)).

(** Radio [rfm] and LoRaWAN stack [lora] *)
Definition rfm_init : M G unit :=
  fun m => (tt, emit ERfmInit m).

Definition setKeys : M G unit :=
  fun m => (tt, emit ESetKeys m).

Definition RFM_Temp : M G Z :=
  fun m => let t := temperature m 0%nat in
           (t, emit (ERFM_Temp t) (next_temperature m)).

Definition Send_Data (Data : list Z) (Data_Length : Z) (Frame_Counter : Z)
  : M G unit :=
  fun m => (tt, emit (ESend_Data Data Data_Length Frame_Counter) m).

(** Global variables *)
Definition get_globals : M G G := fun m => (globals m, m).
Definition put_globals (g : G) : M G unit := fun m => (tt, set_globals g m).

(** [for (int i = 0; i < n; i++) acc = body(acc);] for a body that does
    not mention [i]. *)
Fixpoint for_loop (n : nat) (body : Z -> M G Z) (acc : Z) : M G Z :=
  match n with
  | O => mret acc
  | S n' => acc' ← body acc; for_loop n' body acc'
  end.

(** The sketch's entry point is [setup(); for (;;) loop();]. *)
Fixpoint iterate (n : nat) (body : M G unit) : M G unit :=
  match n with
  | O => mret tt
  | S n' => body;; iterate n' body
  end.
End Arduino.

(** ** The calibration sketch, [calibrate/src/main.cpp] *)

Module Calibrate.
Definition irled : Z := 3.
Definition irdiode : Z := 7.
Definition statusled : Z := 2.

(** [#define THRESHOLD 15] *)
Definition shipped_THRESHOLD : N := 15.

Section Build.
(** [A2] comes from the Arduino core's pin table. [THRESHOLD] is the
    macro, a build parameter: a non-negative integer literal, whose
    value the usual arithmetic conversions leave unchanged in the
    comparison with an [unsigned int]. *)
Variable A2 : Z.
Variable THRESHOLD : N.

Definition irsens : Z := A2.

Definition setup : M unit unit :=
  pinMode irled OUTPUT;;
  pinMode irdiode OUTPUT;;
  pinMode statusled OUTPUT;;
  digitalWrite statusled HIGH;;
  delay 500;;
  digitalWrite statusled LOW;;
  delay 500.

(** Body of the [for] loop of [checkLetter]:
    [delay(15); measure += analogRead(irsens);] *)
Definition checkLetter_step (measure : Z) : M unit Z :=
  delay 15;;
  v ← analogRead irsens;
  mret (to_unsigned_int (measure + v)).

(** The averaged reading before the comparison; [checkLetter] below
    is this followed by the test against [THRESHOLD]. *)
Definition checkLetter_measure : M unit Z :=
  digitalWrite irled HIGH;;
  digitalWrite irdiode HIGH;;
  let measure := 0 in
  measure ← for_loop 3 checkLetter_step measure;
  digitalWrite irled LOW;;
  digitalWrite irdiode LOW;;
  let measure := Z.quot measure 3 in
  mret measure.

Definition checkLetter : M unit bool :=
  measure ← checkLetter_measure;
  if measure >? Z.of_N THRESHOLD then mret true else mret false.

Definition loop : M unit unit :=
  b ← checkLetter;
  (if Bool.eqb b true
   then digitalWrite statusled HIGH
   else digitalWrite statusled LOW);;
  delay 100.
End Build.
End Calibrate.

(** ** The deployed sensor node, [letterbox_sensor/src/main.cpp] *)

Module Sensor.
Definition atsleep : Z := 1800.
Definition irled : Z := 3.
Definition irdiode : Z := 7.
Definition statusled : Z := 2.

(** [#define THRESHOLD 30] *)
Definition shipped_THRESHOLD : N := 30.

(** The sketch's only global variable that changes. The watchdog
    interrupt handler only calls [at.incrCycles()], inside the sleep
    driver; the sketch sees it through what [at.checkAction()] returns. *)
Record Globals : Type := mkGlobals { Frame_Counter_Tx : Z }.

(** [unsigned int Frame_Counter_Tx = 0x0000;] *)
Definition boot_globals : Globals := mkGlobals 0x0000.

Section Build.
(** [A2] and [THRESHOLD] as in the calibration sketch. *)
Variable A2 : Z.
Variable THRESHOLD : N.

Definition irsens : Z := A2.

Definition setup : M Globals unit :=
  setSleeptime atsleep;;
  rfm_init;;
  setKeys;;
  pinMode irled OUTPUT;;
  pinMode statusled OUTPUT;;
  pinMode irdiode OUTPUT;;
  digitalWrite statusled HIGH;;
  delay 10;;
  digitalWrite statusled LOW.

(** Body of the [for] loop of [checkLetter]:
    [delay(25); measure += analogRead(irsens);] *)
Definition checkLetter_step (measure : Z) : M Globals Z :=
  delay 25;;
  v ← analogRead irsens;
  mret (to_unsigned_int (measure + v)).

Definition checkLetter : M Globals Z :=
  digitalWrite irled HIGH;;
  digitalWrite irdiode HIGH;;
  let measure := 0 in
  delay 25;;
  measure ← for_loop 3 checkLetter_step measure;
  digitalWrite irled LOW;;
  digitalWrite irdiode LOW;;
  let measure := Z.quot measure 3 in
  mret measure.

(** The block guarded by [at.checkAction()]. [Data] is the array as
    allocated, before any cell is written. *)
Definition sample_and_send (Data : list Z) : M Globals unit :=
  let Data_Length := 0x07 in
  let measure := 0 in
  measure ← checkLetter;
  let Data :=
    if measure >? Z.of_N THRESHOLD
    then <[0%nat := to_uint8_t 0xFF]> Data
    else <[0%nat := to_uint8_t 0x00]> Data in
  vol ← getVoltage;
  let vol := to_unsigned_int vol in
  let Data := <[1%nat := to_uint8_t (Z.land vol 0xFF)]> Data in
  let Data := <[2%nat := to_uint8_t (Z.land (Z.shiftr vol 8) 0xFF)]> Data in
  let Data := <[3%nat := to_uint8_t (Z.land measure 0xFF)]> Data in
  let Data := <[4%nat := to_uint8_t (Z.land (Z.shiftr measure 8) 0xFF)]> Data in
  let Data := <[5%nat := to_uint8_t (Z.of_N THRESHOLD)]> Data in
  temp ← RFM_Temp;
  let Data := <[6%nat := to_uint8_t temp]> Data in
  g ← get_globals;
  Send_Data Data Data_Length (Frame_Counter_Tx g);;
  put_globals (mkGlobals (to_unsigned_int (Frame_Counter_Tx g + 1))).

(** [uint8_t Data[Data_Length];] is not initialised; every cell is
    written before the array is handed to the radio (see
    [sample_and_send_run] below), so the contents chosen here do not
    matter. *)
Definition fresh_Data : list Z := replicate (Z.to_nat 0x07) 0.

Definition loop : M Globals unit :=
  due ← checkAction;
  (if due : bool then sample_and_send fresh_Data else mret tt);;
  setSleeptime atsleep;;
  gotoSleep.

(** [setup(); for (;;) loop();], cut after [n] wake cycles. *)
Definition run (n : nat) : M Globals unit :=
  setup;; iterate n loop.
End Build.

(** The machine at power-on: globals at their initialisers, nothing
    logged yet. *)
Definition boot (pins0 : gmap Z bool) (adc0 : nat -> Z) (action0 : nat -> bool)
           (voltage0 temperature0 : nat -> Z) : Machine Globals :=
  mkMachine boot_globals pins0 [] adc0 action0 voltage0 temperature0.
End Sensor.

(** ** Observations on machines and logs *)

(** Level of an output pin; a pin never written is at its reset level. *)
Definition digitalLevel (p : gmap Z bool) (pin : Z) : bool :=
  default LOW (p !! pin).

(** What a computation appended to the log. *)
Definition events_of {G A} (c : M G A) (m : Machine G) : list Event :=
  drop (length (log m)) (log (exec c m)).

(** The uplinks in a log: payload and frame counter of each [Send_Data]. *)
Definition frame_of (e : Event) : option (list Z * Z) :=
  match e with
  | ESend_Data Data _ fc => Some (Data, fc)
  | _ => None
  end.

Definition frames (l : list Event) : list (list Z * Z) := omap frame_of l.

(** The values handed back by the [analogRead] calls in a log. *)
Definition reading_of (e : Event) : option Z :=
  match e with
  | EAnalogRead _ v => Some v
  | _ => None
  end.

Definition readings (l : list Event) : list Z := omap reading_of l.

(** Time waited before each [analogRead]: the delays summed since the
    previous [analogRead] or [digitalWrite]. *)
Fixpoint read_delays_from (waited : Z) (l : list Event) : list Z :=
  match l with
  | [] => []
  | EDelay ms :: l' => read_delays_from (waited + ms) l'
  | EAnalogRead _ _ :: l' => waited :: read_delays_from 0 l'
  | EDigitalWrite _ _ :: l' => read_delays_from 0 l'
  | _ :: l' => read_delays_from waited l'
  end.

Definition read_delays (l : list Event) : list Z := read_delays_from 0 l.

(** The pin levels in force at each [analogRead] of a log, replayed from
    the levels [p] at its start. *)
Fixpoint pins_at_reads (p : gmap Z bool) (l : list Event) : list (gmap Z bool) :=
  match l with
  | [] => []
  | EDigitalWrite pin level :: l' => pins_at_reads (<[pin := level]> p) l'
  | EAnalogRead _ _ :: l' => p :: pins_at_reads p l'
  | _ :: l' => pins_at_reads p l'
  end.

(** Sum of the next [n] values of a stream, without wrap-around. *)
Fixpoint reading_sum (s : nat -> Z) (n : nat) : Z :=
  match n with
  | O => 0
  | S n' => s O + reading_sum (fun k => s (S k)) n'
  end.

(** How many of the next [n] wake cycles are due. *)
Fixpoint due_count (a : nat -> bool) (n : nat) : nat :=
  match n with
  | O => O
  | S n' => ((if a O then 1 else 0) + due_count (fun k => a (S k)) n')%nat
  end.

(** The payload layout in the words of the specification. *)
Definition buildPayload (flag : bool)
           (voltage measurement threshold temperature : Z) : list Z :=
  [ if flag then 0xFF else 0x00;
    Z.land voltage 0xFF;
    Z.land (Z.shiftr voltage 8) 0xFF;
    Z.land measurement 0xFF;
    Z.land (Z.shiftr measurement 8) 0xFF;
    threshold mod 256;
    temperature mod 256 ].

(** Decoding of two payload bytes, low byte first. *)
Definition decode_le (lo hi : Z) : Z := lo + 256 * hi.

(** ** Concrete environments *)

(** The stream that hands back the values of [l] in order, then [d]. *)
Definition stream_of {A} (l : list A) (d : A) : nat -> A :=
  fun k => nth k l d.

(** A sensor node at power-on with all pins low, whose ADC, scheduler,
    battery gauge and radio thermometer hand back the listed values. *)
Definition sensor_bench (adc_values : list Z) (due : list bool)
           (volt temp : Z) : Machine Sensor.Globals :=
  Sensor.boot ∅ (stream_of adc_values 0) (stream_of due false)
              (stream_of [] volt) (stream_of [] temp).

(** A calibration board with all pins low and the listed ADC values. *)
Definition calibrate_bench (adc_values : list Z) : Machine unit :=
  mkMachine tt ∅ [] (stream_of adc_values 0) (stream_of [] false)
            (stream_of [] 0) (stream_of [] 0).

(** ** Properties of a payload *)

(** Byte 0 is [0xFF] exactly when the measurement held in bytes 3 and 4
    exceeds the threshold. *)
Definition flag_matches_measurement (T : N) (payload : list Z) : Prop :=
  exists b0 b3 b4,
    payload !! 0%nat = Some b0 /\ payload !! 3%nat = Some b3
    /\ payload !! 4%nat = Some b4
    /\ (b0 = 0xFF <-> decode_le b3 b4 > Z.of_N T).

(** ** Properties of a sampling run *)

(** What one call of the sampler does to the output pins: from the levels
    [before] it leaves the levels [after], having appended [events]. *)
Definition sampler_pin_contract (irled irdiode : Z)
           (before after : gmap Z bool) (events : list Event) : Prop :=
  digitalLevel after irled = LOW
  /\ digitalLevel after irdiode = LOW
  /\ (forall pin, pin <> irled -> pin <> irdiode ->
                  digitalLevel after pin = digitalLevel before pin)
  /\ length (pins_at_reads before events) = 3%nat
  /\ Forall (fun p => digitalLevel p irled = HIGH /\ digitalLevel p irdiode = HIGH)
            (pins_at_reads before events)
  /\ (digitalLevel before irled = LOW -> digitalLevel before irdiode = LOW ->
      forall pin, digitalLevel after pin = digitalLevel before pin).

(** ** Whole runs and further observations *)

(** The calibration sketch as the Arduino core runs it:
    [setup(); for (;;) loop();], cut after [n] rounds. *)
Definition calibrate_run (A2 : Z) (THRESHOLD : N) (n : nat) : M unit unit :=
  Calibrate.setup;; iterate n (Calibrate.loop A2 THRESHOLD).

(** The measurement of the [k]-th sampling of a stream of ADC values: the
    truncated mean, in the accumulator's arithmetic, of the values
    [3k], [3k+1] and [3k+2]. *)
Definition sample_at (s : nat -> Z) (k : nat) : Z :=
  Z.quot (to_unsigned_int (s (3 * k)%nat + s (3 * k + 1)%nat + s (3 * k + 2)%nat)) 3.

(** What a receiver reads back from a seven-byte payload: event flag,
    voltage, measurement, threshold byte and temperature byte. *)
Definition decode_payload (payload : list Z) : option (bool * Z * Z * Z * Z) :=
  match payload with
  | [b0; b1; b2; b3; b4; b5; b6] =>
      Some (b0 =? 0xFF, decode_le b1 b2, decode_le b3 b4, b5, b6)
  | _ => None
  end.

(** A [Send_Data] call is well formed when the length it announces is the
    length of the array and every cell is a byte. *)
Definition well_formed_send (e : Event) : Prop :=
  match e with
  | ESend_Data Data Data_Length _ =>
      Z.of_nat (length Data) = Data_Length
      /\ Data_Length = 7
      /\ Forall (fun b => 0 <= b < 256) Data
  | _ => True
  end.

(** Milliseconds spent in [delay] over a log. *)
Definition delay_of (e : Event) : Z :=
  match e with
  | EDelay ms => ms
  | _ => 0
  end.

Definition total_delay (l : list Event) : Z :=
  foldr (fun e acc => delay_of e + acc) 0 l.

(** The levels written to one pin, in order. *)
Definition write_to (pin : Z) (e : Event) : option bool :=
  match e with
  | EDigitalWrite p level => if decide (p = pin) then Some level else None
  | _ => None
  end.

Definition writes_to (pin : Z) (l : list Event) : list bool :=
  omap (write_to pin) l.

Definition is_gotoSleep (e : Event) : bool :=
  match e with
  | EGotoSleep => true
  | _ => false
  end.

Definition is_checkAction (e : Event) : bool :=
  match e with
  | ECheckAction _ => true
  | _ => false
  end.

(** Every [gotoSleep] in the log comes directly after a [setSleeptime]
    of [ticks]; [prev] is the event before the log's first. *)
Fixpoint rearmed_before_sleep (ticks : Z) (prev : option Event) (l : list Event)
  : bool :=
  match l with
  | [] => true
  | e :: l' =>
      (match e, prev with
       | EGotoSleep, Some (ESetSleeptime t) => t =? ticks
       | EGotoSleep, _ => false
       | _, _ => true
       end) && rearmed_before_sleep ticks (Some e) l'
  end.

(** Byte 0 of the frame in a log that holds exactly one frame. *)
Definition flag_sent (l : list Event) : option Z :=
  match frames l with
  | [(payload, _)] => payload !! 0%nat
  | _ => None
  end.

(** How many events of a log satisfy a test. *)
Definition count_events (f : Event -> bool) (l : list Event) : nat :=
  length (List.filter f l).

(** The last event of a log, or [prev] when the log is empty. *)
Definition last_or (prev : option Event) (l : list Event) : option Event :=
  match last l with
  | Some e => Some e
  | None => prev
  end.

(** ** Arithmetic of the integer conversions *)

Lemma to_unsigned_int_range z : 0 <= to_unsigned_int z < 65536.
Proof. unfold to_unsigned_int. change (2 ^ 16) with 65536. apply Z.mod_pos_bound. lia. Qed.

Lemma to_unsigned_int_small z : 0 <= z < 65536 -> to_unsigned_int z = z.
Proof. intros H. unfold to_unsigned_int. change (2 ^ 16) with 65536. apply Z.mod_small, H. Qed.

Lemma to_unsigned_int_add_l a b :
  to_unsigned_int (to_unsigned_int a + b) = to_unsigned_int (a + b).
Proof. unfold to_unsigned_int. apply Zplus_mod_idemp_l. Qed.

Lemma to_unsigned_int_idem a : to_unsigned_int (to_unsigned_int a) = to_unsigned_int a.
Proof. unfold to_unsigned_int. apply Zmod_mod. Qed.

Lemma land_0xFF z : Z.land z 0xFF = z mod 256.
Proof. change 0xFF with (Z.ones 8). rewrite Z.land_ones by lia. reflexivity. Qed.

Lemma to_uint8_t_range z : 0 <= to_uint8_t z < 256.
Proof. unfold to_uint8_t. change (2 ^ 8) with 256. apply Z.mod_pos_bound. lia. Qed.

Lemma to_uint8_t_land z : to_uint8_t (Z.land z 0xFF) = Z.land z 0xFF.
Proof.
  rewrite land_0xFF. unfold to_uint8_t. change (2 ^ 8) with 256. apply Zmod_mod.
Qed.

(** The low byte and the second byte of a value only depend on its low
    sixteen bits. *)
Lemma low_byte_unsigned_int z : Z.land (to_unsigned_int z) 0xFF = Z.land z 0xFF.
Proof.
  rewrite !land_0xFF. unfold to_unsigned_int. change (2 ^ 16) with (256 * 256).
  rewrite Z.rem_mul_r by lia.
  rewrite (Z.mul_comm 256), Z.mod_add by lia. apply Zmod_mod.
Qed.

Lemma high_byte_unsigned_int z :
  Z.land (Z.shiftr (to_unsigned_int z) 8) 0xFF = Z.land (Z.shiftr z 8) 0xFF.
Proof.
  rewrite !land_0xFF, !Z.shiftr_div_pow2 by lia.
  unfold to_unsigned_int. change (2 ^ 16) with (256 * 256). change (2 ^ 8) with 256.
  rewrite Z.rem_mul_r by lia.
  rewrite (Z.mul_comm 256), Z.div_add by lia.
  rewrite (Z.div_small (z mod 256)) by (apply Z.mod_pos_bound; lia).
  rewrite Z.add_0_l. apply Zmod_mod.
Qed.

(** Two bytes, low byte first, hold an [unsigned int] without loss. *)
Lemma decode_le_bytes z :
  0 <= z < 65536 ->
  decode_le (Z.land z 0xFF) (Z.land (Z.shiftr z 8) 0xFF) = z.
Proof.
  intros Hz. unfold decode_le.
  rewrite !land_0xFF, Z.shiftr_div_pow2 by lia. change (2 ^ 8) with 256.
  rewrite (Z.mod_small (z / 256)).
  - symmetry. rewrite Z.add_comm. apply Z.div_mod. lia.
  - split; [apply Z.div_pos; lia | apply Z.div_lt_upper_bound; lia].
Qed.

(** Truncating and flooring division agree on a non-negative dividend. *)
Lemma quot3_div z : 0 <= z -> Z.quot z 3 = z / 3.
Proof. intros H. apply Z.quot_div_nonneg; lia. Qed.

Lemma quot3_unsigned_int_range z : 0 <= Z.quot (to_unsigned_int z) 3 < 65536.
Proof.
  pose proof (to_unsigned_int_range z) as H.
  rewrite quot3_div by lia. split.
  - apply Z.div_pos; lia.
  - apply Z.div_lt_upper_bound; lia.
Qed.

Lemma reading_sum_3 s : reading_sum s 3 = s 0%nat + s 1%nat + s 2%nat.
Proof. simpl. lia. Qed.

(** ** Running the sketches: closed forms *)

Ltac run_machine :=
  cbv beta iota zeta delta
    [mbind mret M_bind M_ret exec eval fst snd
     pinMode digitalWrite delay analogRead setSleeptime gotoSleep checkAction
     getVoltage rfm_init setKeys RFM_Temp Send_Data get_globals put_globals
     emit set_pin set_globals next_adc next_action next_voltage next_temperature
     for_loop iterate globals pins log adc action voltage temperature].

Lemma wrapped_sum_3 a b c :
  to_unsigned_int (to_unsigned_int (to_unsigned_int (0 + a) + b) + c)
  = to_unsigned_int (a + b + c).
Proof.
  rewrite Z.add_0_l, (to_unsigned_int_add_l a b), to_unsigned_int_add_l.
  reflexivity.
Qed.

Lemma calibrate_checkLetter_measure_run A2 (m : Machine unit) :
  Calibrate.checkLetter_measure A2 m =
  (Z.quot (to_unsigned_int (reading_sum (adc m) 3)) 3,
   mkMachine (globals m)
     (<[Calibrate.irdiode := LOW]> (<[Calibrate.irled := LOW]>
        (<[Calibrate.irdiode := HIGH]> (<[Calibrate.irled := HIGH]> (pins m)))))
     (log m ++ [EDigitalWrite Calibrate.irled HIGH; EDigitalWrite Calibrate.irdiode HIGH;
                EDelay 15; EAnalogRead A2 (adc m 0%nat);
                EDelay 15; EAnalogRead A2 (adc m 1%nat);
                EDelay 15; EAnalogRead A2 (adc m 2%nat);
                EDigitalWrite Calibrate.irled LOW; EDigitalWrite Calibrate.irdiode LOW])
     (fun k => adc m (S (S (S k)))) (action m) (voltage m) (temperature m)).
Proof.
  destruct m as [g p l a ac v t].
  unfold Calibrate.checkLetter_measure, Calibrate.checkLetter_step, Calibrate.irsens.
  run_machine. rewrite <- !app_assoc, wrapped_sum_3, reading_sum_3. reflexivity.
Qed.

Lemma calibrate_checkLetter_run A2 T (m : Machine unit) :
  Calibrate.checkLetter A2 T m =
  (Z.quot (to_unsigned_int (reading_sum (adc m) 3)) 3 >? Z.of_N T,
   exec (Calibrate.checkLetter_measure A2) m).
Proof.
  unfold Calibrate.checkLetter, exec.
  cbv beta iota zeta delta [mbind M_bind mret M_ret].
  rewrite calibrate_checkLetter_measure_run. simpl.
  destruct (_ >? _); reflexivity.
Qed.

Lemma sensor_checkLetter_run A2 (m : Machine Sensor.Globals) :
  Sensor.checkLetter A2 m =
  (Z.quot (to_unsigned_int (reading_sum (adc m) 3)) 3,
   mkMachine (globals m)
     (<[Sensor.irdiode := LOW]> (<[Sensor.irled := LOW]>
        (<[Sensor.irdiode := HIGH]> (<[Sensor.irled := HIGH]> (pins m)))))
     (log m ++ [EDigitalWrite Sensor.irled HIGH; EDigitalWrite Sensor.irdiode HIGH;
                EDelay 25;
                EDelay 25; EAnalogRead A2 (adc m 0%nat);
                EDelay 25; EAnalogRead A2 (adc m 1%nat);
                EDelay 25; EAnalogRead A2 (adc m 2%nat);
                EDigitalWrite Sensor.irled LOW; EDigitalWrite Sensor.irdiode LOW])
     (fun k => adc m (S (S (S k)))) (action m) (voltage m) (temperature m)).
Proof.
  destruct m as [g p l a ac v t].
  unfold Sensor.checkLetter, Sensor.checkLetter_step, Sensor.irsens.
  run_machine. rewrite <- !app_assoc, wrapped_sum_3, reading_sum_3. reflexivity.
Qed.

(** The seven stores into [Data] overwrite whatever the array held. *)
Lemma sample_and_send_run A2 T (Data : list Z) (m : Machine Sensor.Globals) :
  length Data = 7%nat ->
  Sensor.sample_and_send A2 T Data m =
  (tt,
   let measure := eval (Sensor.checkLetter A2) m in
   let m1 := exec (Sensor.checkLetter A2) m in
   mkMachine
     (Sensor.mkGlobals (to_unsigned_int (Sensor.Frame_Counter_Tx (globals m) + 1)))
     (pins m1)
     (log m1 ++ [EGetVoltage (voltage m 0%nat); ERFM_Temp (temperature m 0%nat);
                 ESend_Data (buildPayload (measure >? Z.of_N T) (voltage m 0%nat)
                                          measure (Z.of_N T) (temperature m 0%nat))
                            7 (Sensor.Frame_Counter_Tx (globals m))])
     (adc m1) (action m)
     (fun k => voltage m (S k)) (fun k => temperature m (S k))).
Proof.
  intros Hlen.
  do 8 (destruct Data as [|? Data]; try discriminate Hlen). clear Hlen.
  unfold Sensor.sample_and_send, exec, eval.
  cbv beta iota zeta delta [mbind M_bind mret M_ret].
  rewrite sensor_checkLetter_run.
  destruct m as [g p l a ac v t].
  run_machine.
  set (measure := Z.quot _ 3).
  unfold buildPayload.
  rewrite <- !app_assoc.
  rewrite !to_uint8_t_land, low_byte_unsigned_int, high_byte_unsigned_int.
  destruct (measure >? Z.of_N T); reflexivity.
Qed.

Lemma sensor_loop_idle A2 T (m : Machine Sensor.Globals) :
  action m 0%nat = false ->
  exec (Sensor.loop A2 T) m =
  mkMachine (globals m) (pins m)
    (log m ++ [ECheckAction false; ESetSleeptime Sensor.atsleep; EGotoSleep])
    (adc m) (fun k => action m (S k)) (voltage m) (temperature m).
Proof.
  intros Hidle. destruct m as [g p l a ac v t]. simpl in Hidle.
  unfold Sensor.loop. run_machine. rewrite Hidle.
  rewrite <- !app_assoc. reflexivity.
Qed.

Lemma sensor_loop_due A2 T (m : Machine Sensor.Globals) :
  action m 0%nat = true ->
  exec (Sensor.loop A2 T) m =
  let measure := eval (Sensor.checkLetter A2) m in
  mkMachine
    (Sensor.mkGlobals (to_unsigned_int (Sensor.Frame_Counter_Tx (globals m) + 1)))
    (pins (exec (Sensor.checkLetter A2) m))
    (log m ++ ECheckAction true :: events_of (Sensor.checkLetter A2) m
           ++ [EGetVoltage (voltage m 0%nat); ERFM_Temp (temperature m 0%nat);
               ESend_Data (buildPayload (measure >? Z.of_N T) (voltage m 0%nat)
                                        measure (Z.of_N T) (temperature m 0%nat))
                          7 (Sensor.Frame_Counter_Tx (globals m));
               ESetSleeptime Sensor.atsleep; EGotoSleep])
    (fun k => adc m (S (S (S k)))) (fun k => action m (S k))
    (fun k => voltage m (S k)) (fun k => temperature m (S k)).
Proof.
  intros Hdue. unfold Sensor.loop, exec, eval, events_of.
  cbv beta iota zeta delta [mbind M_bind mret M_ret checkAction].
  rewrite Hdue.
  rewrite sample_and_send_run by reflexivity.
  unfold exec, eval. rewrite !sensor_checkLetter_run.
  destruct m as [g p l a ac v t].
  run_machine.
  rewrite drop_app_length.
  rewrite <- !app_assoc. reflexivity.
Qed.

Lemma sensor_setup_run (m : Machine Sensor.Globals) :
  exec Sensor.setup m =
  mkMachine (globals m)
    (<[Sensor.statusled := LOW]> (<[Sensor.statusled := HIGH]> (pins m)))
    (log m ++ [ESetSleeptime Sensor.atsleep; ERfmInit; ESetKeys;
               EPinMode Sensor.irled OUTPUT; EPinMode Sensor.statusled OUTPUT;
               EPinMode Sensor.irdiode OUTPUT;
               EDigitalWrite Sensor.statusled HIGH; EDelay 10;
               EDigitalWrite Sensor.statusled LOW])
    (adc m) (action m) (voltage m) (temperature m).
Proof.
  destruct m as [g p l a ac v t].
  unfold Sensor.setup. run_machine. rewrite <- !app_assoc. reflexivity.
Qed.

Lemma exec_iterate_S {G} n (body : M G unit) (m : Machine G) :
  exec (iterate (S n) body) m = exec (iterate n body) (exec body m).
Proof.
  unfold exec. simpl. cbv beta iota zeta delta [mbind M_bind].
  destruct (body m) as [u m']. reflexivity.
Qed.

Lemma exec_iterate_snoc {G} n (body : M G unit) (m : Machine G) :
  exec (iterate (S n) body) m = exec body (exec (iterate n body) m).
Proof.
  revert m. induction n as [|n IH]; intros m.
  - rewrite exec_iterate_S. reflexivity.
  - rewrite exec_iterate_S, IH, <- exec_iterate_S. reflexivity.
Qed.

Lemma sensor_run_exec A2 T n (m : Machine Sensor.Globals) :
  exec (Sensor.run A2 T n) m
  = exec (iterate n (Sensor.loop A2 T)) (exec Sensor.setup m).
Proof.
  unfold Sensor.run, exec. cbv beta iota zeta delta [mbind M_bind].
  destruct (Sensor.setup m) as [u m']. reflexivity.
Qed.

Lemma frames_app l1 l2 : frames (l1 ++ l2) = frames l1 ++ frames l2.
Proof. apply omap_app. Qed.

Lemma readings_app l1 l2 : readings (l1 ++ l2) = readings l1 ++ readings l2.
Proof. apply omap_app. Qed.

Lemma events_of_app {G A} (c : M G A) (m : Machine G) l :
  log (exec c m) = log m ++ l -> events_of c m = l.
Proof. intros H. unfold events_of. rewrite H. apply drop_app_length. Qed.

Lemma sensor_checkLetter_events A2 (m : Machine Sensor.Globals) :
  events_of (Sensor.checkLetter A2) m =
  [EDigitalWrite Sensor.irled HIGH; EDigitalWrite Sensor.irdiode HIGH;
   EDelay 25;
   EDelay 25; EAnalogRead A2 (adc m 0%nat);
   EDelay 25; EAnalogRead A2 (adc m 1%nat);
   EDelay 25; EAnalogRead A2 (adc m 2%nat);
   EDigitalWrite Sensor.irled LOW; EDigitalWrite Sensor.irdiode LOW].
Proof.
  apply events_of_app. unfold exec. rewrite sensor_checkLetter_run. reflexivity.
Qed.

Lemma calibrate_checkLetter_measure_events A2 (m : Machine unit) :
  events_of (Calibrate.checkLetter_measure A2) m =
  [EDigitalWrite Calibrate.irled HIGH; EDigitalWrite Calibrate.irdiode HIGH;
   EDelay 15; EAnalogRead A2 (adc m 0%nat);
   EDelay 15; EAnalogRead A2 (adc m 1%nat);
   EDelay 15; EAnalogRead A2 (adc m 2%nat);
   EDigitalWrite Calibrate.irled LOW; EDigitalWrite Calibrate.irdiode LOW].
Proof.
  apply events_of_app. unfold exec.
  rewrite calibrate_checkLetter_measure_run. reflexivity.
Qed.

Lemma calibrate_checkLetter_events A2 T (m : Machine unit) :
  events_of (Calibrate.checkLetter A2 T) m
  = events_of (Calibrate.checkLetter_measure A2) m.
Proof.
  unfold events_of at 1. unfold exec at 1.
  rewrite calibrate_checkLetter_run. reflexivity.
Qed.

Lemma sensor_checkLetter_eval A2 (m : Machine Sensor.Globals) :
  eval (Sensor.checkLetter A2) m
  = Z.quot (to_unsigned_int (reading_sum (adc m) 3)) 3.
Proof. unfold eval. rewrite sensor_checkLetter_run. reflexivity. Qed.

Lemma calibrate_checkLetter_measure_eval A2 (m : Machine unit) :
  eval (Calibrate.checkLetter_measure A2) m
  = Z.quot (to_unsigned_int (reading_sum (adc m) 3)) 3.
Proof. unfold eval. rewrite calibrate_checkLetter_measure_run. reflexivity. Qed.

Lemma calibrate_checkLetter_eval A2 T (m : Machine unit) :
  eval (Calibrate.checkLetter A2 T) m
  = (eval (Calibrate.checkLetter_measure A2) m >? Z.of_N T).
Proof.
  unfold eval at 1. rewrite calibrate_checkLetter_run.
  rewrite calibrate_checkLetter_measure_eval. reflexivity.
Qed.

Lemma sensor_checkLetter_eval_range A2 (m : Machine Sensor.Globals) :
  0 <= eval (Sensor.checkLetter A2) m < 65536.
Proof. rewrite sensor_checkLetter_eval. apply quot3_unsigned_int_range. Qed.

Lemma sensor_loop_due_events A2 T (m : Machine Sensor.Globals) :
  action m 0%nat = true ->
  events_of (Sensor.loop A2 T) m =
  let measure := eval (Sensor.checkLetter A2) m in
  ECheckAction true :: events_of (Sensor.checkLetter A2) m
    ++ [EGetVoltage (voltage m 0%nat); ERFM_Temp (temperature m 0%nat);
        ESend_Data (buildPayload (measure >? Z.of_N T) (voltage m 0%nat)
                                 measure (Z.of_N T) (temperature m 0%nat))
                   7 (Sensor.Frame_Counter_Tx (globals m));
        ESetSleeptime Sensor.atsleep; EGotoSleep].
Proof.
  intros Hdue. apply events_of_app.
  rewrite sensor_loop_due by exact Hdue. reflexivity.
Qed.

Lemma sensor_loop_idle_events A2 T (m : Machine Sensor.Globals) :
  action m 0%nat = false ->
  events_of (Sensor.loop A2 T) m =
  [ECheckAction false; ESetSleeptime Sensor.atsleep; EGotoSleep].
Proof.
  intros Hidle. apply events_of_app.
  rewrite sensor_loop_idle by exact Hidle. reflexivity.
Qed.

Lemma sensor_loop_due_frames A2 T (m : Machine Sensor.Globals) :
  action m 0%nat = true ->
  frames (events_of (Sensor.loop A2 T) m) =
  let measure := eval (Sensor.checkLetter A2) m in
  [(buildPayload (measure >? Z.of_N T) (voltage m 0%nat)
                 measure (Z.of_N T) (temperature m 0%nat),
    Sensor.Frame_Counter_Tx (globals m))].
Proof.
  intros Hdue. rewrite sensor_loop_due_events by exact Hdue.
  rewrite sensor_checkLetter_events. reflexivity.
Qed.

Lemma log_exec_events {G A} (c : M G A) (m : Machine G) l :
  log (exec c m) = log m ++ l -> log (exec c m) = log m ++ events_of c m.
Proof. intros H. rewrite (events_of_app c m l H). exact H. Qed.

Lemma sensor_loop_log A2 T (m : Machine Sensor.Globals) :
  log (exec (Sensor.loop A2 T) m) = log m ++ events_of (Sensor.loop A2 T) m.
Proof.
  destruct (action m 0%nat) eqn:Ha.
  - eapply log_exec_events. rewrite sensor_loop_due by exact Ha. reflexivity.
  - eapply log_exec_events. rewrite sensor_loop_idle by exact Ha. reflexivity.
Qed.

(** ** The uplink payload *)

(** C1: in a wake cycle that is due, the sketch hands exactly one frame to
    the radio, and its payload is the seven bytes
    [0xFF] or [0x00] for the event flag, the low and the high byte of the
    battery voltage, the low and the high byte of the measurement, the
    threshold as one byte and the temperature as one byte; with the flag
    set, voltage 300, measurement 45, threshold 30 and temperature 20 the
    payload is [0xFF, 0x2C, 0x01, 0x2D, 0x00, 30, 20]. *)
Theorem uplink_payload_layout A2 T (m : Machine Sensor.Globals) :
  action m 0%nat = true ->
  let measurement := eval (Sensor.checkLetter A2) m in
  let flag := measurement >? Z.of_N T in
  let volt := voltage m 0%nat in
  let temp := temperature m 0%nat in
  frames (events_of (Sensor.loop A2 T) m) =
    [([ if flag then 0xFF else 0x00;
        Z.land volt 0xFF; Z.land (Z.shiftr volt 8) 0xFF;
        Z.land measurement 0xFF; Z.land (Z.shiftr measurement 8) 0xFF;
        to_uint8_t (Z.of_N T); to_uint8_t temp ],
      Sensor.Frame_Counter_Tx (globals m))]
  /\ (flag = true -> volt = 300 -> measurement = 45 -> T = 30%N -> temp = 20 ->
      map fst (frames (events_of (Sensor.loop A2 T) m))
      = [[0xFF; 0x2C; 0x01; 0x2D; 0x00; 30; 20]]).
Proof.
  intros Hdue measurement flag volt temp.
  pose proof (sensor_loop_due_frames A2 T m Hdue) as Hfr.
  cbv zeta in Hfr. fold measurement volt temp in Hfr. fold flag in Hfr.
  split.
  - rewrite Hfr. reflexivity.
  - intros Hflag Hvolt Hmeas HT Htemp. rewrite Hfr.
    rewrite Hflag, Hvolt, Hmeas, HT, Htemp. reflexivity.
Qed.

Lemma uplink_payload_layout_witness :
  frames (events_of (Sensor.loop 2 Sensor.shipped_THRESHOLD)
                    (sensor_bench [45; 45; 45] [true] 300 20))
  = [([0xFF; 0x2C; 0x01; 0x2D; 0x00; 30; 20], 0)].
Proof.
  apply (uplink_payload_layout 2 Sensor.shipped_THRESHOLD
                               (sensor_bench [45; 45; 45] [true] 300 20)).
  reflexivity.
Defined.

(** C6: byte 5 of the payload is the threshold reduced modulo 256; a
    threshold of 300 is sent as 44. *)
Theorem threshold_byte_truncated A2 T (m : Machine Sensor.Globals) :
  action m 0%nat = true ->
  exists payload fc,
    frames (events_of (Sensor.loop A2 T) m) = [(payload, fc)]
    /\ payload !! 5%nat = Some (Z.of_N T mod 256)
    /\ (T = 300%N -> payload !! 5%nat = Some 44).
Proof.
  intros Hdue. eexists _, _. split; [|split].
  - apply sensor_loop_due_frames, Hdue.
  - reflexivity.
  - intros ->. reflexivity.
Qed.

Lemma threshold_byte_truncated_witness :
  exists payload fc,
    frames (events_of (Sensor.loop 2 300)
                      (sensor_bench [45; 45; 45] [true] 300 20)) = [(payload, fc)]
    /\ payload !! 5%nat = Some (Z.of_N 300 mod 256)
    /\ (300%N = 300%N -> payload !! 5%nat = Some 44).
Proof.
  apply (threshold_byte_truncated 2 300 (sensor_bench [45; 45; 45] [true] 300 20)).
  reflexivity.
Defined.

Lemma buildPayload_flag_matches T volt measure temp :
  0 <= measure < 65536 ->
  flag_matches_measurement T
    (buildPayload (measure >? Z.of_N T) volt measure (Z.of_N T) temp).
Proof.
  intros Hrange. unfold flag_matches_measurement, buildPayload.
  eexists _, _, _. repeat split; try reflexivity.
  - rewrite decode_le_bytes by exact Hrange.
    destruct (Z.gtb_spec measure (Z.of_N T)); [lia | discriminate].
  - rewrite decode_le_bytes by exact Hrange.
    destruct (Z.gtb_spec measure (Z.of_N T)); [reflexivity | lia].
Qed.

Lemma sensor_loop_frames_invariant A2 T (P : list Z * Z -> Prop) :
  (forall (m : Machine Sensor.Globals),
      action m 0%nat = true -> Forall P (frames (events_of (Sensor.loop A2 T) m))) ->
  forall n (m : Machine Sensor.Globals),
    Forall P (frames (log m)) ->
    Forall P (frames (log (exec (iterate n (Sensor.loop A2 T)) m))).
Proof.
  intros Hstep n. induction n as [|n IH]; intros m Hm.
  - exact Hm.
  - rewrite exec_iterate_S. apply IH.
    rewrite sensor_loop_log, frames_app. apply Forall_app. split; [exact Hm|].
    destruct (action m 0%nat) eqn:Ha.
    + apply Hstep, Ha.
    + rewrite sensor_loop_idle_events by exact Ha. constructor.
Qed.

Lemma sensor_setup_frames (m : Machine Sensor.Globals) :
  frames (log (exec Sensor.setup m)) = frames (log m).
Proof.
  rewrite sensor_setup_run. simpl. rewrite frames_app. simpl.
  apply app_nil_r.
Qed.

(** C9: in every payload the deployed node transmits, from power-on and
    over any number of wake cycles, byte 0 is [0xFF] if and only if the
    16-bit value held low byte first in bytes 3 and 4 is strictly greater
    than the threshold. *)
Theorem flag_consistent_with_measurement
        A2 T n pins0 adc0 action0 voltage0 temperature0 :
  Forall (fun frame => flag_matches_measurement T (fst frame))
         (frames (log (exec (Sensor.run A2 T n)
                            (Sensor.boot pins0 adc0 action0 voltage0 temperature0)))).
Proof.
  rewrite sensor_run_exec.
  apply sensor_loop_frames_invariant.
  - intros m Hdue. rewrite sensor_loop_due_frames by exact Hdue.
    constructor; [|constructor]. simpl.
    apply buildPayload_flag_matches, sensor_checkLetter_eval_range.
  - rewrite sensor_setup_frames. constructor.
Qed.

(** ** The event classification *)

(** C2: the classification is the strict comparison of the measurement
    with the threshold. The calibration sketch's [checkLetter] returns
    [true] exactly when the measurement is greater than the threshold, and
    the sensor node sends [0xFF] in byte 0 exactly then and [0x00]
    otherwise; a measurement of 30 against a threshold of 30 is no event,
    a measurement of 31 is one. *)
Theorem classification_strict A2 T :
  (forall mc : Machine unit,
      let measurement := eval (Calibrate.checkLetter_measure A2) mc in
      (eval (Calibrate.checkLetter A2 T) mc = true <-> measurement > Z.of_N T)
      /\ (T = 30%N -> measurement = 30 -> eval (Calibrate.checkLetter A2 T) mc = false)
      /\ (T = 30%N -> measurement = 31 -> eval (Calibrate.checkLetter A2 T) mc = true))
  /\ (forall ms : Machine Sensor.Globals,
      action ms 0%nat = true ->
      let measurement := eval (Sensor.checkLetter A2) ms in
      exists payload fc b0,
        frames (events_of (Sensor.loop A2 T) ms) = [(payload, fc)]
        /\ payload !! 0%nat = Some b0
        /\ (b0 = 0xFF <-> measurement > Z.of_N T)
        /\ (b0 = 0x00 <-> measurement <= Z.of_N T)
        /\ (T = 30%N -> measurement = 30 -> b0 = 0x00)
        /\ (T = 30%N -> measurement = 31 -> b0 = 0xFF)).
Proof.
  split.
  - intros mc measurement. rewrite calibrate_checkLetter_eval. fold measurement.
    split; [|split].
    + destruct (Z.gtb_spec measurement (Z.of_N T)); split; intros; try lia; congruence.
    + intros -> ->. reflexivity.
    + intros -> ->. reflexivity.
  - intros ms Hdue measurement.
    eexists _, _, _. split; [apply sensor_loop_due_frames, Hdue|].
    split; [reflexivity|]. fold measurement.
    destruct (Z.gtb_spec measurement (Z.of_N T)) as [Hgt|Hle].
    + repeat split; intros; subst; try lia; try discriminate; reflexivity.
    + repeat split; intros; subst; try lia; try discriminate; reflexivity.
Qed.

Lemma classification_strict_witness :
  (eval (Calibrate.checkLetter 2 30) (calibrate_bench [30; 30; 30]) = false
   /\ eval (Calibrate.checkLetter 2 30) (calibrate_bench [31; 31; 31]) = true)
  /\ exists payload fc b0,
      frames (events_of (Sensor.loop 2 30)
                        (sensor_bench [31; 31; 31] [true] 300 20)) = [(payload, fc)]
      /\ payload !! 0%nat = Some b0 /\ b0 = 0xFF.
Proof.
  split.
  - split.
    + apply (proj1 (classification_strict 2 30) (calibrate_bench [30; 30; 30]));
        reflexivity.
    + apply (proj1 (classification_strict 2 30) (calibrate_bench [31; 31; 31]));
        reflexivity.
  - destruct (proj2 (classification_strict 2 30)
                    (sensor_bench [31; 31; 31] [true] 300 20) eq_refl)
      as (payload & fc & b0 & Hfr & Hb0 & _ & _ & _ & H31).
    exists payload, fc, b0. repeat split; try assumption.
    apply H31; reflexivity.
Defined.

(** ** The sampler's arithmetic *)

Lemma reading_sum_bound B (s : nat -> Z) n :
  (forall k, (k < n)%nat -> 0 <= s k <= B) ->
  0 <= reading_sum s n <= B * Z.of_nat n.
Proof.
  revert s. induction n as [|n IH]; intros s Hs.
  - simpl. lia.
  - pose proof (Hs O ltac:(lia)) as H0.
    pose proof (IH (fun k => s (S k)) (fun k Hk => Hs (S k) ltac:(lia))) as Hn.
    cbn [reading_sum]. lia.
Qed.

(** The accumulator after [n] rounds of [delay(d); measure += analogRead(pin);]
    is the sum of the readings reduced modulo 2^16. *)
Lemma for_loop_accumulates {G} d pin n :
  forall acc (m : Machine G),
    0 <= acc < 65536 ->
    eval (for_loop n (fun measure =>
                        delay d;;
                        v ← analogRead pin;
                        mret (to_unsigned_int (measure + v))) acc) m
    = to_unsigned_int (acc + reading_sum (adc m) n).
Proof.
  induction n as [|n IH]; intros acc m Hacc.
  - simpl. rewrite Z.add_0_r, to_unsigned_int_small by exact Hacc. reflexivity.
  - unfold eval in *. cbn [for_loop reading_sum].
    cbv beta iota zeta delta [mbind M_bind mret M_ret delay analogRead].
    rewrite IH by apply to_unsigned_int_range.
    destruct m as [g p l a ac v t].
    cbv beta iota zeta delta [emit next_adc adc globals pins log action voltage temperature].
    rewrite to_unsigned_int_add_l, Z.add_assoc. reflexivity.
Qed.

(** C3: for every three ADC readings a, b, c, each in the converter's
    10-bit range 0..1023, the measurement is (a+b+c)/3 with truncating
    integer division, the remainder being discarded: readings 10, 11, 12
    give 11 and readings 10, 10, 11 give 10. The sensor node's
    [checkLetter] returns this value; the calibration sketch computes the
    same value and returns its comparison with the threshold. *)
Theorem measurement_is_truncated_mean A2 T
        (ms : Machine Sensor.Globals) (mc : Machine unit) :
  (forall k, (k < 3)%nat -> 0 <= adc ms k <= 1023) ->
  (forall k, (k < 3)%nat -> 0 <= adc mc k <= 1023) ->
  (let a := adc ms 0%nat in let b := adc ms 1%nat in let c := adc ms 2%nat in
   let measurement := eval (Sensor.checkLetter A2) ms in
   measurement = Z.quot (a + b + c) 3
   /\ 3 * measurement <= a + b + c < 3 * measurement + 3
   /\ (a = 10 -> b = 11 -> c = 12 -> measurement = 11)
   /\ (a = 10 -> b = 10 -> c = 11 -> measurement = 10))
  /\
  (let a := adc mc 0%nat in let b := adc mc 1%nat in let c := adc mc 2%nat in
   let measurement := eval (Calibrate.checkLetter_measure A2) mc in
   measurement = Z.quot (a + b + c) 3
   /\ 3 * measurement <= a + b + c < 3 * measurement + 3
   /\ (a = 10 -> b = 11 -> c = 12 -> measurement = 11)
   /\ (a = 10 -> b = 10 -> c = 11 -> measurement = 10)
   /\ eval (Calibrate.checkLetter A2 T) mc = (measurement >? Z.of_N T)).
Proof.
  intros Hs Hc.
  assert (Hgen : forall s : nat -> Z,
             (forall k, (k < 3)%nat -> 0 <= s k <= 1023) ->
             let q := Z.quot (to_unsigned_int (reading_sum s 3)) 3 in
             q = Z.quot (s 0%nat + s 1%nat + s 2%nat) 3
             /\ 3 * q <= s 0%nat + s 1%nat + s 2%nat < 3 * q + 3
             /\ (s 0%nat = 10 -> s 1%nat = 11 -> s 2%nat = 12 -> q = 11)
             /\ (s 0%nat = 10 -> s 1%nat = 10 -> s 2%nat = 11 -> q = 10)).
  { intros s Hr q. subst q.
    pose proof (Hr 0%nat ltac:(lia)). pose proof (Hr 1%nat ltac:(lia)).
    pose proof (Hr 2%nat ltac:(lia)).
    rewrite reading_sum_3, to_unsigned_int_small by lia.
    split; [reflexivity|]. split.
    - rewrite quot3_div by lia. Z.div_mod_to_equations. lia.
    - split; intros -> -> ->; reflexivity. }
  split; cbv zeta.
  - rewrite sensor_checkLetter_eval. apply Hgen, Hs.
  - rewrite calibrate_checkLetter_eval, calibrate_checkLetter_measure_eval.
    destruct (Hgen (adc mc) Hc) as (H1 & H2 & H3 & H4).
    repeat split; assumption || apply H2.
Qed.

Lemma measurement_is_truncated_mean_witness :
  eval (Sensor.checkLetter 2) (sensor_bench [10; 11; 12] [] 0 0) = 11
  /\ eval (Calibrate.checkLetter_measure 2) (calibrate_bench [10; 10; 11]) = 10.
Proof.
  assert (Hs : forall k, (k < 3)%nat -> 0 <= stream_of [10; 11; 12] 0 k <= 1023).
  { intros k Hk. destruct k as [|[|[|k]]]; simpl; lia. }
  assert (Hc : forall k, (k < 3)%nat -> 0 <= stream_of [10; 10; 11] 0 k <= 1023).
  { intros k Hk. destruct k as [|[|[|k]]]; simpl; lia. }
  destruct (measurement_is_truncated_mean 2 15
              (sensor_bench [10; 11; 12] [] 0 0)
              (calibrate_bench [10; 10; 11]) Hs Hc)
    as [(_ & _ & H11 & _) (_ & _ & _ & H10 & _)].
  split.
  - apply H11; reflexivity.
  - apply H10; reflexivity.
Defined.

(** C10: with every reading in the 10-bit range 0..1023, the accumulator
    holds the exact running sum after each of the three additions, the sum
    stays at or below 3069, and the measurement is the exact truncated mean
    of the three readings. *)
Theorem accumulator_never_wraps A2
        (ms : Machine Sensor.Globals) (mc : Machine unit) :
  (forall k, (k < 3)%nat -> 0 <= adc ms k <= 1023) ->
  (forall k, (k < 3)%nat -> 0 <= adc mc k <= 1023) ->
  (forall n, (n <= 3)%nat ->
     eval (for_loop n (Sensor.checkLetter_step A2) 0) ms = reading_sum (adc ms) n
     /\ 0 <= reading_sum (adc ms) n <= 3069)
  /\ eval (Sensor.checkLetter A2) ms
     = Z.quot (adc ms 0%nat + adc ms 1%nat + adc ms 2%nat) 3
  /\ (forall n, (n <= 3)%nat ->
     eval (for_loop n (Calibrate.checkLetter_step A2) 0) mc = reading_sum (adc mc) n
     /\ 0 <= reading_sum (adc mc) n <= 3069)
  /\ eval (Calibrate.checkLetter_measure A2) mc
     = Z.quot (adc mc 0%nat + adc mc 1%nat + adc mc 2%nat) 3.
Proof.
  intros Hs Hc.
  assert (Hbound : forall (s : nat -> Z) n,
             (forall k, (k < 3)%nat -> 0 <= s k <= 1023) -> (n <= 3)%nat ->
             0 <= reading_sum s n <= 3069).
  { intros s n Hr Hn.
    pose proof (reading_sum_bound 1023 s n (fun k Hk => Hr k ltac:(lia))). lia. }
  split; [|split; [|split]].
  - intros n Hn. pose proof (Hbound _ n Hs Hn) as Hb. split; [|exact Hb].
    unfold Sensor.checkLetter_step, Sensor.irsens.
    rewrite for_loop_accumulates by lia.
    rewrite Z.add_0_l. apply to_unsigned_int_small. lia.
  - pose proof (Hbound _ 3%nat Hs ltac:(lia)) as Hb.
    rewrite sensor_checkLetter_eval, to_unsigned_int_small by lia.
    rewrite reading_sum_3. reflexivity.
  - intros n Hn. pose proof (Hbound _ n Hc Hn) as Hb. split; [|exact Hb].
    unfold Calibrate.checkLetter_step, Calibrate.irsens.
    rewrite for_loop_accumulates by lia.
    rewrite Z.add_0_l. apply to_unsigned_int_small. lia.
  - pose proof (Hbound _ 3%nat Hc ltac:(lia)) as Hb.
    rewrite calibrate_checkLetter_measure_eval, to_unsigned_int_small by lia.
    rewrite reading_sum_3. reflexivity.
Qed.

Lemma accumulator_never_wraps_witness :
  eval (Sensor.checkLetter 2) (sensor_bench [1023; 1023; 1023] [] 0 0)
  = Z.quot (1023 + 1023 + 1023) 3
  /\ eval (Calibrate.checkLetter_measure 2) (calibrate_bench [1023; 1023; 1023])
     = Z.quot (1023 + 1023 + 1023) 3.
Proof.
  assert (Hrange : forall k, (k < 3)%nat -> 0 <= stream_of [1023; 1023; 1023] 0 k <= 1023).
  { intros k Hk. destruct k as [|[|[|k]]]; simpl; lia. }
  pose proof (accumulator_never_wraps 2
                (sensor_bench [1023; 1023; 1023] [] 0 0)
                (calibrate_bench [1023; 1023; 1023]) Hrange Hrange)
    as (_ & Hs & _ & Hc).
  split; [exact Hs | exact Hc].
Defined.

(** ** The sampler's timing and pins *)

(** C7 (as amended): both samplers drive the two pins high and take
    exactly three readings, consecutive readings one delay apart (15 ms in
    the calibration sketch, 25 ms on the sensor node). The calibration
    sketch waits one such delay before the first reading; the sensor node
    waits two, 50 ms in all: its settle delay and the delay that opens the
    first round of the loop. *)
Theorem sampling_schedule A2 T
        (ms : Machine Sensor.Globals) (mc : Machine unit) :
  (events_of (Calibrate.checkLetter A2 T) mc =
     [EDigitalWrite Calibrate.irled HIGH; EDigitalWrite Calibrate.irdiode HIGH;
      EDelay 15; EAnalogRead (Calibrate.irsens A2) (adc mc 0%nat);
      EDelay 15; EAnalogRead (Calibrate.irsens A2) (adc mc 1%nat);
      EDelay 15; EAnalogRead (Calibrate.irsens A2) (adc mc 2%nat);
      EDigitalWrite Calibrate.irled LOW; EDigitalWrite Calibrate.irdiode LOW]
   /\ read_delays (events_of (Calibrate.checkLetter A2 T) mc) = [15; 15; 15])
  /\
  (events_of (Sensor.checkLetter A2) ms =
     [EDigitalWrite Sensor.irled HIGH; EDigitalWrite Sensor.irdiode HIGH;
      EDelay 25;
      EDelay 25; EAnalogRead (Sensor.irsens A2) (adc ms 0%nat);
      EDelay 25; EAnalogRead (Sensor.irsens A2) (adc ms 1%nat);
      EDelay 25; EAnalogRead (Sensor.irsens A2) (adc ms 2%nat);
      EDigitalWrite Sensor.irled LOW; EDigitalWrite Sensor.irdiode LOW]
   /\ read_delays (events_of (Sensor.checkLetter A2) ms) = [50; 25; 25]).
Proof.
  split.
  - rewrite calibrate_checkLetter_events, calibrate_checkLetter_measure_events.
    split; reflexivity.
  - rewrite sensor_checkLetter_events. split; reflexivity.
Qed.

(** With a single 25 ms wait before the first reading the waits on the
    sensor node would be 25, 25, 25; they are 50, 25, 25: the first reading
    comes 50 ms after the pins go high. *)
Lemma sensor_first_reading_after_two_delays :
  read_delays (events_of (Sensor.checkLetter 2)
                         (sensor_bench [10; 11; 12] [] 0 0)) = [50; 25; 25]
  /\ read_delays (events_of (Sensor.checkLetter 2)
                            (sensor_bench [10; 11; 12] [] 0 0)) <> [25; 25; 25].
Proof. split; [reflexivity | discriminate]. Qed.

Lemma digitalLevel_insert_eq p pin level :
  digitalLevel (<[pin := level]> p) pin = level.
Proof. unfold digitalLevel. rewrite lookup_insert_eq. reflexivity. Qed.

Lemma digitalLevel_insert_ne p pin pin' level :
  pin <> pin' -> digitalLevel (<[pin := level]> p) pin' = digitalLevel p pin'.
Proof. intros H. unfold digitalLevel. rewrite lookup_insert_ne by exact H. reflexivity. Qed.

(** High, three readings, low: the effect of both samplers on the two
    pins. *)
Lemma pulse_pin_contract (irled irdiode : Z) (p : gmap Z bool) events :
  irled <> irdiode ->
  (let powered := <[irdiode := HIGH]> (<[irled := HIGH]> p) in
   pins_at_reads p events = [powered; powered; powered]) ->
  sampler_pin_contract irled irdiode p
    (<[irdiode := LOW]> (<[irled := LOW]>
       (<[irdiode := HIGH]> (<[irled := HIGH]> p))))
    events.
Proof.
  intros Hne Hreads. cbv zeta in Hreads. unfold sampler_pin_contract.
  rewrite Hreads.
  split; [|split; [|split; [|split; [|split]]]].
  - rewrite digitalLevel_insert_ne by congruence. apply digitalLevel_insert_eq.
  - apply digitalLevel_insert_eq.
  - intros pin H1 H2. rewrite !digitalLevel_insert_ne by congruence. reflexivity.
  - reflexivity.
  - repeat constructor;
      solve [ apply digitalLevel_insert_eq
            | rewrite digitalLevel_insert_ne by congruence;
              apply digitalLevel_insert_eq ].
  - intros Hled Hdiode pin.
    destruct (decide (pin = irdiode)) as [->|H2].
    + rewrite digitalLevel_insert_eq. symmetry. exact Hdiode.
    + rewrite digitalLevel_insert_ne by congruence.
      destruct (decide (pin = irled)) as [->|H1].
      * rewrite digitalLevel_insert_eq. symmetry. exact Hled.
      * rewrite !digitalLevel_insert_ne by congruence. reflexivity.
Qed.

(** C8: every call of the sampler, in both sketches, has the emitter pin
    and the detector-power pin high at each of its three readings and low
    when it returns, and changes no other pin; called with both pins low,
    as [setup] and every earlier call leave them, it returns with every pin
    at the level it had before. *)
Theorem sampler_restores_pins A2 T
        (ms : Machine Sensor.Globals) (mc : Machine unit) :
  sampler_pin_contract Sensor.irled Sensor.irdiode
    (pins ms) (pins (exec (Sensor.checkLetter A2) ms))
    (events_of (Sensor.checkLetter A2) ms)
  /\ sampler_pin_contract Calibrate.irled Calibrate.irdiode
    (pins mc) (pins (exec (Calibrate.checkLetter A2 T) mc))
    (events_of (Calibrate.checkLetter A2 T) mc).
Proof.
  split.
  - rewrite sensor_checkLetter_events.
    unfold exec. rewrite sensor_checkLetter_run. cbn [snd pins].
    apply pulse_pin_contract; [discriminate | reflexivity].
  - rewrite calibrate_checkLetter_events, calibrate_checkLetter_measure_events.
    unfold exec at 1. rewrite calibrate_checkLetter_run. cbn [snd].
    unfold exec. rewrite calibrate_checkLetter_measure_run. cbn [snd pins].
    apply pulse_pin_contract; [discriminate | reflexivity].
Qed.

Lemma sampler_restores_pins_witness :
  digitalLevel (pins (exec (Sensor.checkLetter 2)
                           (sensor_bench [10; 11; 12] [] 0 0))) Sensor.irled
  = digitalLevel ∅ Sensor.irled
  /\ digitalLevel (pins (exec (Sensor.checkLetter 2)
                              (sensor_bench [10; 11; 12] [] 0 0))) Sensor.irdiode
     = digitalLevel ∅ Sensor.irdiode
  /\ digitalLevel (pins (exec (Calibrate.checkLetter 2 Calibrate.shipped_THRESHOLD)
                              (calibrate_bench [10; 11; 12]))) Calibrate.statusled
     = digitalLevel ∅ Calibrate.statusled.
Proof.
  destruct (sampler_restores_pins 2 Calibrate.shipped_THRESHOLD
              (sensor_bench [10; 11; 12] [] 0 0)
              (calibrate_bench [10; 11; 12]))
    as [(_ & _ & _ & _ & _ & Hs) (_ & _ & _ & _ & _ & Hc)].
  split; [|split].
  - apply Hs; reflexivity.
  - apply Hs; reflexivity.
  - apply Hc; reflexivity.
Defined.

(** ** The frame counter and the wake cycle *)

Lemma sensor_loop_action A2 T (m : Machine Sensor.Globals) :
  action (exec (Sensor.loop A2 T) m) = fun k => action m (S k).
Proof.
  destruct (action m 0%nat) eqn:Ha.
  - rewrite sensor_loop_due by exact Ha. reflexivity.
  - rewrite sensor_loop_idle by exact Ha. reflexivity.
Qed.

Lemma sensor_loop_counter A2 T (m : Machine Sensor.Globals) :
  Sensor.Frame_Counter_Tx (globals (exec (Sensor.loop A2 T) m))
  = if action m 0%nat
    then to_unsigned_int (Sensor.Frame_Counter_Tx (globals m) + 1)
    else Sensor.Frame_Counter_Tx (globals m).
Proof.
  destruct (action m 0%nat) eqn:Ha.
  - rewrite sensor_loop_due by exact Ha. reflexivity.
  - rewrite sensor_loop_idle by exact Ha. reflexivity.
Qed.

Lemma sensor_loop_counters_sent A2 T (m : Machine Sensor.Globals) :
  map snd (frames (events_of (Sensor.loop A2 T) m))
  = if action m 0%nat then [Sensor.Frame_Counter_Tx (globals m)] else [].
Proof.
  destruct (action m 0%nat) eqn:Ha.
  - rewrite sensor_loop_due_frames by exact Ha. reflexivity.
  - rewrite sensor_loop_idle_events by exact Ha. reflexivity.
Qed.

(** Over [n] wake cycles the counter advances by the number of due cycles,
    and the frames carry its successive values. *)
Lemma frame_counter_iterate A2 T n :
  forall m : Machine Sensor.Globals,
    let fc := Sensor.Frame_Counter_Tx (globals m) in
    let m' := exec (iterate n (Sensor.loop A2 T)) m in
    0 <= fc < 65536 ->
    Sensor.Frame_Counter_Tx (globals m')
    = to_unsigned_int (fc + Z.of_nat (due_count (action m) n))
    /\ map snd (frames (log m'))
       = map snd (frames (log m))
         ++ map (fun k => to_unsigned_int (fc + Z.of_nat k))
                (seq 0 (due_count (action m) n)).
Proof.
  induction n as [|n IH]; intros m fc m' Hfc.
  - subst m'. cbn. fold fc.
    rewrite Z.add_0_r, to_unsigned_int_small, app_nil_r by exact Hfc. auto.
  - subst m'. rewrite exec_iterate_S.
    set (m1 := exec (Sensor.loop A2 T) m).
    assert (Hfc1 : 0 <= Sensor.Frame_Counter_Tx (globals m1) < 65536).
    { subst m1. rewrite sensor_loop_counter.
      destruct (action m 0%nat); [apply to_unsigned_int_range | exact Hfc]. }
    destruct (IH m1 Hfc1) as [IHc IHf]. rewrite IHc, IHf. clear IHc IHf.
    subst m1.
    rewrite sensor_loop_action, sensor_loop_counter, sensor_loop_log.
    rewrite frames_app, map_app, sensor_loop_counters_sent. fold fc.
    cbn [due_count].
    destruct (action m 0%nat).
    + split.
      * rewrite to_unsigned_int_add_l. f_equal. lia.
      * rewrite <- app_assoc. f_equal. cbn [app Nat.add seq map].
        change (Z.of_nat 0) with 0.
        rewrite Z.add_0_r, (to_unsigned_int_small fc) by exact Hfc. f_equal.
        rewrite <- seq_shift, map_map.
        apply map_ext. intros k.
        rewrite to_unsigned_int_add_l. f_equal. lia.
    + split; [reflexivity|]. rewrite app_nil_r. reflexivity.
Qed.

(** C4: the frame counter is 0 at power-on. A wake cycle that is due hands
    the current value to the radio and then adds 1 modulo 2^16, so 0xFFFF
    is followed by 0; a cycle that is not due leaves it alone, and so do
    [setup] and the sampler. From power-on, after any number of wake
    cycles, it equals the number of transmits so far modulo 2^16, and the
    frames sent carry 0, 1, 2, ... modulo 2^16 in order. *)
Theorem frame_counter_counts_transmits A2 T :
  Sensor.Frame_Counter_Tx Sensor.boot_globals = 0
  /\ (forall m : Machine Sensor.Globals,
        let fc := Sensor.Frame_Counter_Tx (globals m) in
        let fc' := Sensor.Frame_Counter_Tx (globals (exec (Sensor.loop A2 T) m)) in
        (action m 0%nat = true ->
           fc' = (fc + 1) mod 2 ^ 16
           /\ map snd (frames (events_of (Sensor.loop A2 T) m)) = [fc]
           /\ (fc = 0xFFFF -> fc' = 0))
        /\ (action m 0%nat = false -> fc' = fc)
        /\ globals (exec Sensor.setup m) = globals m
        /\ globals (exec (Sensor.checkLetter A2) m) = globals m)
  /\ (forall n pins0 adc0 action0 voltage0 temperature0,
        let m := exec (Sensor.run A2 T n)
                   (Sensor.boot pins0 adc0 action0 voltage0 temperature0) in
        let transmits := due_count action0 n in
        length (frames (log m)) = transmits
        /\ Sensor.Frame_Counter_Tx (globals m) = Z.of_nat transmits mod 2 ^ 16
        /\ map snd (frames (log m))
           = map (fun k => Z.of_nat k mod 2 ^ 16) (seq 0 transmits)).
Proof.
  split; [reflexivity|]. split.
  - intros m fc fc'. subst fc'. rewrite sensor_loop_counter.
    rewrite sensor_loop_counters_sent. fold fc.
    split; [|split; [|split]].
    + intros ->. split; [reflexivity|]. split; [reflexivity|].
      intros ->. reflexivity.
    + intros ->. reflexivity.
    + rewrite sensor_setup_run. reflexivity.
    + unfold exec. rewrite sensor_checkLetter_run. reflexivity.
  - intros n pins0 adc0 action0 voltage0 temperature0 m transmits.
    subst m. rewrite sensor_run_exec.
    set (m0 := exec Sensor.setup _).
    assert (Hfc0 : Sensor.Frame_Counter_Tx (globals m0) = 0).
    { subst m0. rewrite sensor_setup_run. reflexivity. }
    assert (Hact0 : action m0 = action0).
    { subst m0. rewrite sensor_setup_run. reflexivity. }
    assert (Hlog0 : frames (log m0) = []).
    { subst m0. rewrite sensor_setup_frames. reflexivity. }
    destruct (frame_counter_iterate A2 T n m0) as [Hc Hf]; [rewrite Hfc0; lia|].
    rewrite Hfc0, Hact0 in Hc, Hf. rewrite Hlog0 in Hf.
    fold transmits in Hc, Hf. cbn [map app] in Hf.
    assert (Hseq : map snd (frames (log (exec (iterate n (Sensor.loop A2 T)) m0)))
                   = map (fun k => Z.of_nat k mod 2 ^ 16) (seq 0 transmits)).
    { rewrite Hf. apply map_ext. intros k. reflexivity. }
    split; [|split].
    + rewrite <- (length_map snd), Hseq, length_map, length_seq. reflexivity.
    + rewrite Hc. reflexivity.
    + exact Hseq.
Qed.

Lemma frame_counter_counts_transmits_witness :
  Sensor.Frame_Counter_Tx
    (globals (exec (Sensor.loop 2 Sensor.shipped_THRESHOLD)
                   (set_globals (Sensor.mkGlobals 0xFFFF)
                                (sensor_bench [10; 11; 12] [true] 300 20))))
  = 0.
Proof.
  destruct (frame_counter_counts_transmits 2 Sensor.shipped_THRESHOLD)
    as (_ & Hstep & _).
  destruct (Hstep (set_globals (Sensor.mkGlobals 0xFFFF)
                               (sensor_bench [10; 11; 12] [true] 300 20)))
    as (Hdue & _).
  destruct (Hdue eq_refl) as (_ & _ & Hwrap).
  apply Hwrap. reflexivity.
Defined.

Lemma sensor_three_idle_cycles A2 T (m : Machine Sensor.Globals) :
  action m 0%nat = false -> action m 1%nat = false -> action m 2%nat = false ->
  exec (iterate 3 (Sensor.loop A2 T)) m =
  mkMachine (globals m) (pins m)
    (log m ++ [ECheckAction false; ESetSleeptime Sensor.atsleep; EGotoSleep;
               ECheckAction false; ESetSleeptime Sensor.atsleep; EGotoSleep;
               ECheckAction false; ESetSleeptime Sensor.atsleep; EGotoSleep])
    (adc m) (fun k => action m (S (S (S k)))) (voltage m) (temperature m).
Proof.
  intros H0 H1 H2. rewrite !exec_iterate_S.
  change (exec (iterate 0 (Sensor.loop A2 T)) ?x) with x.
  rewrite (sensor_loop_idle A2 T m) by exact H0.
  match goal with
  | |- context [exec _ (mkMachine ?g ?p ?l ?a ?ac ?v ?t)] =>
      rewrite (sensor_loop_idle A2 T (mkMachine g p l a ac v t)) by exact H1
  end.
  cbn [globals pins log adc action voltage temperature].
  match goal with
  | |- context [exec _ (mkMachine ?g ?p ?l ?a ?ac ?v ?t)] =>
      rewrite (sensor_loop_idle A2 T (mkMachine g p l a ac v t)) by exact H2
  end.
  cbn [globals pins log adc action voltage temperature].
  rewrite <- !app_assoc. reflexivity.
Qed.

(** C5: a wake cycle in which the scheduler's check returns false only
    re-arms the sleep timer and sleeps: nothing is read from the ADC,
    nothing is handed to the radio, and the frame counter, the pins and the
    pending ADC values are as before. When the check returns false on three
    wake cycles in a row and true on the fourth, the first three cycles
    send nothing and leave the frame counter alone, and the fourth sends
    exactly one frame and adds 1 to the counter. *)
Theorem idle_cycles_do_nothing A2 T (m : Machine Sensor.Globals) :
  (action m 0%nat = false ->
     events_of (Sensor.loop A2 T) m
     = [ECheckAction false; ESetSleeptime 1800; EGotoSleep]
     /\ readings (events_of (Sensor.loop A2 T) m) = []
     /\ frames (events_of (Sensor.loop A2 T) m) = []
     /\ globals (exec (Sensor.loop A2 T) m) = globals m
     /\ pins (exec (Sensor.loop A2 T) m) = pins m
     /\ adc (exec (Sensor.loop A2 T) m) = adc m)
  /\ (action m 0%nat = false -> action m 1%nat = false ->
      action m 2%nat = false -> action m 3%nat = true ->
      let fc := Sensor.Frame_Counter_Tx (globals m) in
      let m3 := exec (iterate 3 (Sensor.loop A2 T)) m in
      let m4 := exec (iterate 4 (Sensor.loop A2 T)) m in
      (readings (events_of (iterate 3 (Sensor.loop A2 T)) m) = []
       /\ frames (events_of (iterate 3 (Sensor.loop A2 T)) m) = []
       /\ Sensor.Frame_Counter_Tx (globals m3) = fc)
      /\ m4 = exec (Sensor.loop A2 T) m3
      /\ events_of (iterate 4 (Sensor.loop A2 T)) m
         = events_of (iterate 3 (Sensor.loop A2 T)) m
           ++ events_of (Sensor.loop A2 T) m3
      /\ map snd (frames (events_of (iterate 4 (Sensor.loop A2 T)) m)) = [fc]
      /\ Sensor.Frame_Counter_Tx (globals m4) = (fc + 1) mod 2 ^ 16).
Proof.
  split.
  - intros Hidle. rewrite sensor_loop_idle_events by exact Hidle.
    rewrite sensor_loop_idle by exact Hidle. repeat split.
  - intros H0 H1 H2 H3 fc m3 m4.
    assert (Hm3 := sensor_three_idle_cycles A2 T m H0 H1 H2). fold m3 in Hm3.
    assert (He3 : events_of (iterate 3 (Sensor.loop A2 T)) m
                  = [ECheckAction false; ESetSleeptime Sensor.atsleep; EGotoSleep;
                     ECheckAction false; ESetSleeptime Sensor.atsleep; EGotoSleep;
                     ECheckAction false; ESetSleeptime Sensor.atsleep; EGotoSleep]).
    { apply events_of_app. fold m3. rewrite Hm3. reflexivity. }
    assert (Hm4 : m4 = exec (Sensor.loop A2 T) m3).
    { subst m4 m3. apply exec_iterate_snoc. }
    assert (Hdue3 : action m3 0%nat = true).
    { rewrite Hm3. exact H3. }
    assert (Hfc3 : Sensor.Frame_Counter_Tx (globals m3) = fc).
    { rewrite Hm3. reflexivity. }
    assert (He4 : events_of (iterate 4 (Sensor.loop A2 T)) m
                  = events_of (iterate 3 (Sensor.loop A2 T)) m
                    ++ events_of (Sensor.loop A2 T) m3).
    { apply events_of_app. fold m4. rewrite Hm4, sensor_loop_log.
      rewrite He3. rewrite Hm3 at 1. cbn [log].
      rewrite <- app_assoc. reflexivity. }
    split; [|split; [|split; [|split]]].
    + rewrite He3. repeat split. exact Hfc3.
    + exact Hm4.
    + exact He4.
    + rewrite He4, frames_app, map_app, sensor_loop_counters_sent, Hdue3, Hfc3.
      rewrite He3. reflexivity.
    + rewrite Hm4, sensor_loop_counter, Hdue3, Hfc3. reflexivity.
Qed.

Lemma idle_cycles_do_nothing_witness :
  frames (events_of (Sensor.loop 2 30)
                    (sensor_bench [10; 11; 12] [false; false; false; true] 300 20))
  = []
  /\ map snd (frames (events_of (iterate 4 (Sensor.loop 2 30))
                (sensor_bench [10; 11; 12] [false; false; false; true] 300 20)))
     = [0]
  /\ Sensor.Frame_Counter_Tx
       (globals (exec (iterate 3 (Sensor.loop 2 30))
                (sensor_bench [10; 11; 12] [false; false; false; true] 300 20)))
     = 0
  /\ Sensor.Frame_Counter_Tx
       (globals (exec (iterate 4 (Sensor.loop 2 30))
                (sensor_bench [10; 11; 12] [false; false; false; true] 300 20)))
     = 1.
Proof.
  destruct (idle_cycles_do_nothing 2 30
              (sensor_bench [10; 11; 12] [false; false; false; true] 300 20))
    as [Hidle Hscenario].
  destruct (Hidle eq_refl) as (_ & _ & Hnone & _).
  destruct (Hscenario eq_refl eq_refl eq_refl eq_refl)
    as ((_ & _ & Hfc3) & _ & _ & Hone & Hfc4).
  repeat split; assumption.
Defined.

(** ** The uplinks of a whole run *)

Lemma sensor_loop_streams A2 T (m : Machine Sensor.Globals) :
  let m' := exec (Sensor.loop A2 T) m in
  if action m 0%nat
  then adc m' = (fun k => adc m (S (S (S k))))
       /\ voltage m' = (fun k => voltage m (S k))
       /\ temperature m' = (fun k => temperature m (S k))
  else adc m' = adc m /\ voltage m' = voltage m /\ temperature m' = temperature m.
Proof.
  cbv zeta. destruct (action m 0%nat) eqn:Ha.
  - rewrite sensor_loop_due by exact Ha. repeat split.
  - rewrite sensor_loop_idle by exact Ha. repeat split.
Qed.

Lemma sample_at_0 s :
  sample_at s 0 = Z.quot (to_unsigned_int (reading_sum s 3)) 3.
Proof. unfold sample_at. rewrite reading_sum_3. reflexivity. Qed.

Lemma sample_at_S s k :
  sample_at (fun j => s (S (S (S j)))) k = sample_at s (S k).
Proof.
  unfold sample_at.
  replace (3 * S k)%nat with (S (S (S (3 * k)))) by lia.
  replace (S (S (S (3 * k))) + 1)%nat with (S (S (S (3 * k + 1)))) by lia.
  replace (S (S (S (3 * k))) + 2)%nat with (S (S (S (3 * k + 2)))) by lia.
  reflexivity.
Qed.

Lemma frames_iterate A2 T n :
  forall m : Machine Sensor.Globals,
    let fc := Sensor.Frame_Counter_Tx (globals m) in
    0 <= fc < 65536 ->
    frames (log (exec (iterate n (Sensor.loop A2 T)) m))
    = frames (log m)
      ++ map (fun k =>
                (buildPayload (sample_at (adc m) k >? Z.of_N T) (voltage m k)
                              (sample_at (adc m) k) (Z.of_N T) (temperature m k),
                 to_unsigned_int (fc + Z.of_nat k)))
             (seq 0 (due_count (action m) n)).
Proof.
  induction n as [|n IH]; intros m fc Hfc.
  - cbn. rewrite app_nil_r. reflexivity.
  - rewrite exec_iterate_S.
    set (m1 := exec (Sensor.loop A2 T) m).
    assert (Hfc1 : 0 <= Sensor.Frame_Counter_Tx (globals m1) < 65536).
    { subst m1. rewrite sensor_loop_counter.
      destruct (action m 0%nat); [apply to_unsigned_int_range | exact Hfc]. }
    rewrite (IH m1 Hfc1). clear IH. subst m1.
    pose proof (sensor_loop_streams A2 T m) as Hstreams. cbv zeta in Hstreams.
    rewrite sensor_loop_action, sensor_loop_counter, sensor_loop_log, frames_app.
    cbn [due_count]. fold fc.
    destruct (action m 0%nat) eqn:Ha.
    + destruct Hstreams as (-> & -> & ->).
      rewrite sensor_loop_due_frames by exact Ha. cbv zeta.
      rewrite sensor_checkLetter_eval, <- sample_at_0.
      rewrite <- app_assoc. f_equal. cbn [app Nat.add seq map].
      change (Z.of_nat 0) with 0.
      rewrite Z.add_0_r, (to_unsigned_int_small fc) by exact Hfc. fold fc. f_equal.
      rewrite <- seq_shift, map_map. apply map_ext. intros k.
      rewrite sample_at_S, to_unsigned_int_add_l. do 2 f_equal. lia.
    + destruct Hstreams as (-> & -> & ->).
      rewrite sensor_loop_idle_events by exact Ha.
      cbn [frames omap list_omap frame_of]. rewrite app_nil_r. reflexivity.
Qed.

(** From power-on, after any number of wake cycles, the frames handed to
    the radio are, in order, one per due cycle: the [k]-th carries the
    payload built from the [k]-th triple of ADC values, the [k]-th battery
    voltage and the [k]-th temperature, with frame counter [k] modulo
    2^16. Idle cycles consume no ADC, voltage or temperature value. *)
Theorem uplinks_of_run A2 T n pins0 adc0 action0 voltage0 temperature0 :
  frames (log (exec (Sensor.run A2 T n)
                    (Sensor.boot pins0 adc0 action0 voltage0 temperature0)))
  = map (fun k =>
           (buildPayload (sample_at adc0 k >? Z.of_N T) (voltage0 k)
                         (sample_at adc0 k) (Z.of_N T) (temperature0 k),
            Z.of_nat k mod 2 ^ 16))
        (seq 0 (due_count action0 n)).
Proof.
  rewrite sensor_run_exec.
  set (m0 := exec Sensor.setup _).
  assert (Hm0 : m0 = exec Sensor.setup
                       (Sensor.boot pins0 adc0 action0 voltage0 temperature0))
    by reflexivity.
  rewrite sensor_setup_run in Hm0.
  rewrite frames_iterate by (rewrite Hm0; cbn; lia).
  rewrite Hm0 at 1. cbn [log Sensor.boot]. rewrite frames_app. cbn [app].
  rewrite Hm0. cbn [globals adc action voltage temperature Sensor.boot
                    Sensor.boot_globals Sensor.Frame_Counter_Tx].
  reflexivity.
Qed.

Lemma readings_iterate A2 T n :
  forall m : Machine Sensor.Globals,
    readings (log (exec (iterate n (Sensor.loop A2 T)) m))
    = readings (log m)
      ++ map (adc m) (seq 0 (3 * due_count (action m) n)).
Proof.
  induction n as [|n IH]; intros m.
  - cbn. rewrite app_nil_r. reflexivity.
  - rewrite exec_iterate_S, IH. clear IH.
    pose proof (sensor_loop_streams A2 T m) as Hstreams. cbv zeta in Hstreams.
    rewrite sensor_loop_action, sensor_loop_log, readings_app.
    cbn [due_count].
    destruct (action m 0%nat) eqn:Ha.
    + destruct Hstreams as (-> & _).
      rewrite sensor_loop_due_events by exact Ha. cbv zeta.
      rewrite sensor_checkLetter_events.
      rewrite <- app_assoc. f_equal.
      replace (3 * (1 + due_count (fun k => action m (S k)) n))%nat
        with (S (S (S (3 * due_count (fun k => action m (S k)) n)))) by lia.
      cbn [seq map]. rewrite <- !seq_shift, !map_map. reflexivity.
    + destruct Hstreams as (-> & _).
      rewrite sensor_loop_idle_events by exact Ha.
      cbn [readings omap list_omap reading_of]. rewrite app_nil_r. reflexivity.
Qed.

(** From power-on, the ADC is read three times per due cycle and never
    otherwise, and the values are taken in the order the ADC delivers
    them, none skipped: after any number of wake cycles the readings in
    the log are the first [3 * transmits] values of the ADC stream. *)
Theorem readings_of_run A2 T n pins0 adc0 action0 voltage0 temperature0 :
  readings (log (exec (Sensor.run A2 T n)
                      (Sensor.boot pins0 adc0 action0 voltage0 temperature0)))
  = map adc0 (seq 0 (3 * due_count action0 n)).
Proof.
  rewrite sensor_run_exec, readings_iterate, sensor_setup_run.
  cbn [log adc action Sensor.boot]. rewrite readings_app. reflexivity.
Qed.

(** ** Well-formed and decodable payloads *)

Lemma buildPayload_bytes flag volt measure thr temp :
  Forall (fun b => 0 <= b < 256) (buildPayload flag volt measure thr temp).
Proof.
  unfold buildPayload. rewrite !land_0xFF.
  repeat constructor; try (apply Z.mod_pos_bound; lia);
    destruct flag; lia.
Qed.

Lemma sensor_loop_events_invariant A2 T (P : Event -> Prop) :
  (forall m : Machine Sensor.Globals, Forall P (events_of (Sensor.loop A2 T) m)) ->
  forall n (m : Machine Sensor.Globals),
    Forall P (log m) ->
    Forall P (log (exec (iterate n (Sensor.loop A2 T)) m)).
Proof.
  intros Hstep n. induction n as [|n IH]; intros m Hm.
  - exact Hm.
  - rewrite exec_iterate_S. apply IH.
    rewrite sensor_loop_log. apply Forall_app. split; [exact Hm | apply Hstep].
Qed.

(** Whatever was in the log at power-on aside, every [Send_Data] call of
    a run announces a length of 7, passes an array of exactly 7 cells, and
    every cell is a byte in 0..255, for every input the environment can
    deliver (any voltage, temperature, ADC value and threshold). *)
Theorem sends_are_well_formed A2 T n pins0 adc0 action0 voltage0 temperature0 :
  Forall well_formed_send
         (log (exec (Sensor.run A2 T n)
                    (Sensor.boot pins0 adc0 action0 voltage0 temperature0))).
Proof.
  rewrite sensor_run_exec.
  apply sensor_loop_events_invariant.
  - intros m. destruct (action m 0%nat) eqn:Ha.
    + rewrite sensor_loop_due_events by exact Ha. cbv zeta.
      rewrite sensor_checkLetter_events.
      repeat (constructor; [exact I|]).
      constructor; [|repeat constructor].
      split; [reflexivity|]. split; [reflexivity|]. apply buildPayload_bytes.
    + rewrite sensor_loop_idle_events by exact Ha. repeat constructor.
  - rewrite sensor_setup_run. cbn [log Sensor.boot app]. repeat constructor.
Qed.

Lemma decode_le_unsigned_int z :
  decode_le (Z.land z 0xFF) (Z.land (Z.shiftr z 8) 0xFF) = z mod 2 ^ 16.
Proof.
  rewrite <- low_byte_unsigned_int, <- high_byte_unsigned_int.
  apply decode_le_bytes, to_unsigned_int_range.
Qed.

(** Decoding the payload of a due cycle gives back what went in: the
    event flag, the voltage modulo 2^16, the measurement exactly, and the
    threshold and temperature modulo 256. A voltage below 2^16 and a
    threshold and temperature below 256 come back unchanged. *)
Theorem payload_round_trip A2 T (m : Machine Sensor.Globals) :
  action m 0%nat = true ->
  let measurement := eval (Sensor.checkLetter A2) m in
  let volt := voltage m 0%nat in
  let temp := temperature m 0%nat in
  exists payload fc,
    frames (events_of (Sensor.loop A2 T) m) = [(payload, fc)]
    /\ decode_payload payload
       = Some (measurement >? Z.of_N T, volt mod 2 ^ 16, measurement,
               Z.of_N T mod 256, temp mod 256)
    /\ (0 <= volt < 2 ^ 16 -> Z.of_N T < 256 -> 0 <= temp < 256 ->
        decode_payload payload
        = Some (measurement >? Z.of_N T, volt, measurement, Z.of_N T, temp)).
Proof.
  intros Hdue measurement volt temp.
  eexists _, _. split; [apply sensor_loop_due_frames, Hdue|].
  cbv zeta. fold measurement volt temp.
  assert (Hdec : decode_payload
                   (buildPayload (measurement >? Z.of_N T) volt measurement
                                 (Z.of_N T) temp)
                 = Some (measurement >? Z.of_N T, volt mod 2 ^ 16, measurement,
                         Z.of_N T mod 256, temp mod 256)).
  { unfold decode_payload, buildPayload.
    rewrite decode_le_unsigned_int.
    rewrite (decode_le_bytes measurement) by apply sensor_checkLetter_eval_range.
    destruct (measurement >? Z.of_N T); reflexivity. }
  split; [exact Hdec|].
  intros Hv HT Ht. rewrite Hdec.
  rewrite (Z.mod_small volt), (Z.mod_small (Z.of_N T)), (Z.mod_small temp) by lia.
  reflexivity.
Qed.

Lemma payload_round_trip_witness :
  exists payload fc,
    frames (events_of (Sensor.loop 2 Sensor.shipped_THRESHOLD)
                      (sensor_bench [45; 46; 47] [true] 3300 21)) = [(payload, fc)]
    /\ decode_payload payload = Some (true, 3300, 46, 30, 21).
Proof.
  destruct (payload_round_trip 2 Sensor.shipped_THRESHOLD
              (sensor_bench [45; 46; 47] [true] 3300 21) eq_refl)
    as (payload & fc & Hfr & _ & Hexact).
  exists payload, fc. split; [exact Hfr|].
  apply Hexact; vm_compute; intuition congruence.
Defined.

(** ** Bounds on the measurement *)

Lemma quot3_unsigned_int_bound z : 0 <= Z.quot (to_unsigned_int z) 3 <= 21845.
Proof.
  pose proof (to_unsigned_int_range z) as H.
  rewrite quot3_div by lia. split.
  - apply Z.div_pos; lia.
  - apply Z.lt_succ_r. apply Z.div_lt_upper_bound; lia.
Qed.

(** Whatever the ADC delivers, the measurement of either sketch lies in
    0..21845 (a third of the accumulator's range), so the high byte of the
    measurement in the payload, byte 4, never exceeds 85. *)
Theorem measurement_bounded A2 T :
  (forall mc : Machine unit,
      0 <= eval (Calibrate.checkLetter_measure A2) mc <= 21845)
  /\ (forall ms : Machine Sensor.Globals,
      0 <= eval (Sensor.checkLetter A2) ms <= 21845)
  /\ (forall n pins0 adc0 action0 voltage0 temperature0,
      Forall (fun frame => exists b4, fst frame !! 4%nat = Some b4 /\ 0 <= b4 <= 85)
             (frames (log (exec (Sensor.run A2 T n)
                        (Sensor.boot pins0 adc0 action0 voltage0 temperature0))))).
Proof.
  split; [|split].
  - intros mc. rewrite calibrate_checkLetter_measure_eval.
    apply quot3_unsigned_int_bound.
  - intros ms. rewrite sensor_checkLetter_eval. apply quot3_unsigned_int_bound.
  - intros n pins0 adc0 action0 voltage0 temperature0.
    rewrite sensor_run_exec. apply sensor_loop_frames_invariant.
    + intros m Hdue. rewrite sensor_loop_due_frames by exact Hdue. cbv zeta.
      constructor; [|constructor]. eexists. split; [reflexivity|].
      rewrite sensor_checkLetter_eval.
      pose proof (quot3_unsigned_int_bound (reading_sum (adc m) 3)) as Hb.
      rewrite land_0xFF, Z.shiftr_div_pow2 by lia. change (2 ^ 8) with 256.
      set (q := Z.quot _ 3) in *.
      assert (0 <= q / 256 <= 85).
      { split; [apply Z.div_pos; lia|].
        apply Z.lt_succ_r. apply Z.div_lt_upper_bound; lia. }
      rewrite Z.mod_small by lia. lia.
    + rewrite sensor_setup_frames. constructor.
Qed.

(** A threshold of 21845 or more can never be exceeded: the calibration
    sketch's [checkLetter] is false and the sensor node sends [0x00] in
    byte 0, whatever the ADC delivers. *)
Theorem large_threshold_never_fires A2 T
        (mc : Machine unit) (ms : Machine Sensor.Globals) :
  (21845 <= T)%N ->
  action ms 0%nat = true ->
  eval (Calibrate.checkLetter A2 T) mc = false
  /\ exists payload fc,
      frames (events_of (Sensor.loop A2 T) ms) = [(payload, fc)]
      /\ payload !! 0%nat = Some 0x00.
Proof.
  intros HT Hdue. split.
  - rewrite calibrate_checkLetter_eval, calibrate_checkLetter_measure_eval.
    pose proof (quot3_unsigned_int_bound (reading_sum (adc mc) 3)).
    destruct (Z.gtb_spec (Z.quot (to_unsigned_int (reading_sum (adc mc) 3)) 3)
                         (Z.of_N T)); [lia | reflexivity].
  - eexists _, _. split; [apply sensor_loop_due_frames, Hdue|].
    cbv zeta. rewrite sensor_checkLetter_eval.
    pose proof (quot3_unsigned_int_bound (reading_sum (adc ms) 3)).
    destruct (Z.gtb_spec (Z.quot (to_unsigned_int (reading_sum (adc ms) 3)) 3)
                         (Z.of_N T)); [lia | reflexivity].
Qed.

Lemma large_threshold_never_fires_witness :
  eval (Calibrate.checkLetter 2 21845) (calibrate_bench [32767; 32767; 1]) = false
  /\ exists payload fc,
      frames (events_of (Sensor.loop 2 21845)
                        (sensor_bench [32767; 32767; 1] [true] 0 0)) = [(payload, fc)]
      /\ payload !! 0%nat = Some 0x00.
Proof.
  apply (large_threshold_never_fires 2 21845
           (calibrate_bench [32767; 32767; 1])
           (sensor_bench [32767; 32767; 1] [true] 0 0)).
  - vm_compute. discriminate.
  - reflexivity.
Defined.

Lemma measurement_in_range (s : nat -> Z) :
  0 <= s 0%nat + s 1%nat + s 2%nat < 65536 ->
  Z.quot (to_unsigned_int (reading_sum s 3)) 3
  = (s 0%nat + s 1%nat + s 2%nat) / 3.
Proof.
  intros H. rewrite reading_sum_3, to_unsigned_int_small by exact H.
  apply quot3_div. lia.
Qed.

(** While the three readings are non-negative and their sum fits the
    accumulator, the measurement lies between the smallest and the largest
    of them; three equal readings are returned unchanged. *)
Theorem measurement_between_extremes A2
        (ms : Machine Sensor.Globals) (mc : Machine unit) :
  (forall k, (k < 3)%nat -> 0 <= adc ms k) ->
  (forall k, (k < 3)%nat -> 0 <= adc mc k) ->
  adc ms 0%nat + adc ms 1%nat + adc ms 2%nat < 65536 ->
  adc mc 0%nat + adc mc 1%nat + adc mc 2%nat < 65536 ->
  (let a := adc ms 0%nat in let b := adc ms 1%nat in let c := adc ms 2%nat in
   let measurement := eval (Sensor.checkLetter A2) ms in
   Z.min a (Z.min b c) <= measurement <= Z.max a (Z.max b c)
   /\ (a = b -> b = c -> measurement = a))
  /\
  (let a := adc mc 0%nat in let b := adc mc 1%nat in let c := adc mc 2%nat in
   let measurement := eval (Calibrate.checkLetter_measure A2) mc in
   Z.min a (Z.min b c) <= measurement <= Z.max a (Z.max b c)
   /\ (a = b -> b = c -> measurement = a)).
Proof.
  intros Hs Hc Hsum_s Hsum_c.
  assert (Hgen : forall s : nat -> Z,
             (forall k, (k < 3)%nat -> 0 <= s k) ->
             s 0%nat + s 1%nat + s 2%nat < 65536 ->
             let q := (s 0%nat + s 1%nat + s 2%nat) / 3 in
             Z.min (s 0%nat) (Z.min (s 1%nat) (s 2%nat)) <= q
             <= Z.max (s 0%nat) (Z.max (s 1%nat) (s 2%nat))
             /\ (s 0%nat = s 1%nat -> s 1%nat = s 2%nat -> q = s 0%nat)).
  { intros s Hpos Hsum q.
    pose proof (Hpos 0%nat ltac:(lia)). pose proof (Hpos 1%nat ltac:(lia)).
    pose proof (Hpos 2%nat ltac:(lia)).
    subst q. split; [split|].
    - apply Z.div_le_lower_bound; lia.
    - apply Z.div_le_upper_bound; lia.
    - intros E1 E2. rewrite <- E2, <- E1.
      replace (s 0%nat + s 0%nat + s 0%nat) with (s 0%nat * 3) by lia.
      apply Z.div_mul. lia. }
  split; cbv zeta.
  - rewrite sensor_checkLetter_eval, measurement_in_range.
    + apply Hgen; assumption.
    + pose proof (Hs 0%nat ltac:(lia)). pose proof (Hs 1%nat ltac:(lia)).
      pose proof (Hs 2%nat ltac:(lia)). lia.
  - rewrite calibrate_checkLetter_measure_eval, measurement_in_range.
    + apply Hgen; assumption.
    + pose proof (Hc 0%nat ltac:(lia)). pose proof (Hc 1%nat ltac:(lia)).
      pose proof (Hc 2%nat ltac:(lia)). lia.
Qed.

Lemma measurement_between_extremes_witness :
  Z.min 7 (Z.min 1023 500)
  <= eval (Sensor.checkLetter 2) (sensor_bench [7; 1023; 500] [] 0 0)
  <= Z.max 7 (Z.max 1023 500).
Proof.
  assert (Hpos : forall k, (k < 3)%nat -> 0 <= stream_of [7; 1023; 500] 0 k).
  { intros k Hk. destruct k as [|[|[|k]]]; simpl; lia. }
  apply (measurement_between_extremes 2
           (sensor_bench [7; 1023; 500] [] 0 0)
           (calibrate_bench [7; 1023; 500]) Hpos Hpos);
    vm_compute; reflexivity.
Defined.

(** ** When an event is reported *)

Lemma sensor_loop_flag_sent A2 T (m : Machine Sensor.Globals) :
  action m 0%nat = true ->
  flag_sent (events_of (Sensor.loop A2 T) m)
  = Some (if eval (Sensor.checkLetter A2) m >? Z.of_N T then 0xFF else 0x00).
Proof.
  intros Hdue. unfold flag_sent.
  rewrite sensor_loop_due_frames by exact Hdue. reflexivity.
Qed.

Lemma sensor_loop_idle_flag_sent A2 T (m : Machine Sensor.Globals) :
  action m 0%nat = false ->
  flag_sent (events_of (Sensor.loop A2 T) m) = None.
Proof.
  intros Hidle. unfold flag_sent.
  rewrite sensor_loop_idle_events by exact Hidle. reflexivity.
Qed.

Lemma mean_exceeds_iff sum thr :
  0 <= sum -> (sum / 3 > thr <-> 3 * thr + 3 <= sum).
Proof. intros H. Z.div_mod_to_equations. lia. Qed.

(** In terms of the raw readings: while their sum fits the accumulator,
    an event is reported exactly when the sum of the three readings
    reaches 3 * THRESHOLD + 3. With the sensor node's threshold 30 a sum of
    92 is no event and a sum of 93 is one. *)
Theorem event_iff_sum_reaches A2 T
        (ms : Machine Sensor.Globals) (mc : Machine unit) :
  action ms 0%nat = true ->
  0 <= adc ms 0%nat + adc ms 1%nat + adc ms 2%nat < 65536 ->
  0 <= adc mc 0%nat + adc mc 1%nat + adc mc 2%nat < 65536 ->
  (flag_sent (events_of (Sensor.loop A2 T) ms) = Some 0xFF
   <-> 3 * Z.of_N T + 3 <= adc ms 0%nat + adc ms 1%nat + adc ms 2%nat)
  /\ (flag_sent (events_of (Sensor.loop A2 T) ms) = Some 0x00
      <-> adc ms 0%nat + adc ms 1%nat + adc ms 2%nat < 3 * Z.of_N T + 3)
  /\ (eval (Calibrate.checkLetter A2 T) mc = true
      <-> 3 * Z.of_N T + 3 <= adc mc 0%nat + adc mc 1%nat + adc mc 2%nat).
Proof.
  intros Hdue Hs Hc.
  rewrite sensor_loop_flag_sent by exact Hdue.
  rewrite calibrate_checkLetter_eval, calibrate_checkLetter_measure_eval.
  rewrite sensor_checkLetter_eval, !measurement_in_range by assumption.
  pose proof (mean_exceeds_iff _ (Z.of_N T) (proj1 Hs)) as Es.
  pose proof (mean_exceeds_iff _ (Z.of_N T) (proj1 Hc)) as Ec.
  split; [|split].
  - destruct (Z.gtb_spec ((adc ms 0%nat + adc ms 1%nat + adc ms 2%nat) / 3)
                         (Z.of_N T)); split; intros; try lia; try discriminate;
      reflexivity.
  - destruct (Z.gtb_spec ((adc ms 0%nat + adc ms 1%nat + adc ms 2%nat) / 3)
                         (Z.of_N T)); split; intros; try lia; try discriminate;
      reflexivity.
  - destruct (Z.gtb_spec ((adc mc 0%nat + adc mc 1%nat + adc mc 2%nat) / 3)
                         (Z.of_N T)); split; intros; try lia; try discriminate;
      reflexivity.
Qed.

Lemma event_iff_sum_reaches_witness :
  flag_sent (events_of (Sensor.loop 2 Sensor.shipped_THRESHOLD)
                       (sensor_bench [31; 31; 30] [true] 0 0)) = Some 0x00
  /\ flag_sent (events_of (Sensor.loop 2 Sensor.shipped_THRESHOLD)
                          (sensor_bench [31; 31; 31] [true] 0 0)) = Some 0xFF.
Proof.
  split.
  - apply (event_iff_sum_reaches 2 Sensor.shipped_THRESHOLD
             (sensor_bench [31; 31; 30] [true] 0 0)
             (calibrate_bench [31; 31; 30]));
      [reflexivity | vm_compute; intuition congruence
       | vm_compute; intuition congruence | vm_compute; reflexivity].
  - apply (event_iff_sum_reaches 2 Sensor.shipped_THRESHOLD
             (sensor_bench [31; 31; 31] [true] 0 0)
             (calibrate_bench [31; 31; 31]));
      [reflexivity | vm_compute; intuition congruence
       | vm_compute; intuition congruence | vm_compute; discriminate].
Defined.

(** Detection is monotone while the sums fit the accumulator: if no
    reading decreases, the measurement does not decrease, and an event that
    was reported is still reported. *)
Theorem detection_monotone A2 T (ms ms' : Machine Sensor.Globals) :
  action ms 0%nat = true -> action ms' 0%nat = true ->
  (forall k, (k < 3)%nat -> adc ms k <= adc ms' k) ->
  0 <= adc ms 0%nat + adc ms 1%nat + adc ms 2%nat ->
  adc ms' 0%nat + adc ms' 1%nat + adc ms' 2%nat < 65536 ->
  eval (Sensor.checkLetter A2) ms <= eval (Sensor.checkLetter A2) ms'
  /\ (flag_sent (events_of (Sensor.loop A2 T) ms) = Some 0xFF ->
      flag_sent (events_of (Sensor.loop A2 T) ms') = Some 0xFF).
Proof.
  intros Hdue Hdue' Hle Hlo Hhi.
  pose proof (Hle 0%nat ltac:(lia)). pose proof (Hle 1%nat ltac:(lia)).
  pose proof (Hle 2%nat ltac:(lia)).
  rewrite !sensor_loop_flag_sent by assumption.
  rewrite !sensor_checkLetter_eval, !measurement_in_range by lia.
  assert (Hq : (adc ms 0%nat + adc ms 1%nat + adc ms 2%nat) / 3
               <= (adc ms' 0%nat + adc ms' 1%nat + adc ms' 2%nat) / 3).
  { apply Z.div_le_mono; lia. }
  split; [exact Hq|].
  destruct (Z.gtb_spec ((adc ms 0%nat + adc ms 1%nat + adc ms 2%nat) / 3) (Z.of_N T));
    [|discriminate].
  destruct (Z.gtb_spec ((adc ms' 0%nat + adc ms' 1%nat + adc ms' 2%nat) / 3) (Z.of_N T));
    [reflexivity | lia].
Qed.

Lemma detection_monotone_witness :
  eval (Sensor.checkLetter 2) (sensor_bench [10; 40; 50] [true] 0 0)
  <= eval (Sensor.checkLetter 2) (sensor_bench [12; 40; 900] [true] 0 0).
Proof.
  assert (Hle : forall k, (k < 3)%nat ->
                          stream_of [10; 40; 50] 0 k <= stream_of [12; 40; 900] 0 k).
  { intros k Hk. destruct k as [|[|[|k]]]; simpl; lia. }
  apply (detection_monotone 2 Sensor.shipped_THRESHOLD
           (sensor_bench [10; 40; 50] [true] 0 0)
           (sensor_bench [12; 40; 900] [true] 0 0) eq_refl eq_refl Hle);
    vm_compute; [discriminate | reflexivity].
Defined.

(** The two sketches agree: built with the same threshold and fed the
    same three readings, the calibration sketch's [checkLetter] is true
    exactly when the sensor node sends [0xFF]. With the shipped thresholds
    (15 and 30) an event on the sensor node implies one on the calibration
    board, and a measurement in 16..30 lights the calibration LED while the
    sensor node sends [0x00]. *)
Theorem sketches_agree A2 (ms : Machine Sensor.Globals) (mc : Machine unit) :
  action ms 0%nat = true ->
  (forall k, (k < 3)%nat -> adc mc k = adc ms k) ->
  (forall T,
      eval (Calibrate.checkLetter A2 T) mc = true
      <-> flag_sent (events_of (Sensor.loop A2 T) ms) = Some 0xFF)
  /\ (flag_sent (events_of (Sensor.loop A2 Sensor.shipped_THRESHOLD) ms) = Some 0xFF ->
      eval (Calibrate.checkLetter A2 Calibrate.shipped_THRESHOLD) mc = true)
  /\ (15 < eval (Sensor.checkLetter A2) ms <= 30 ->
      eval (Calibrate.checkLetter A2 Calibrate.shipped_THRESHOLD) mc = true
      /\ flag_sent (events_of (Sensor.loop A2 Sensor.shipped_THRESHOLD) ms)
         = Some 0x00).
Proof.
  intros Hdue Hsame.
  assert (Hmeas : eval (Calibrate.checkLetter_measure A2) mc
                  = eval (Sensor.checkLetter A2) ms).
  { rewrite calibrate_checkLetter_measure_eval, sensor_checkLetter_eval.
    rewrite !reading_sum_3, !Hsame by lia. reflexivity. }
  split; [|split].
  - intros T. rewrite calibrate_checkLetter_eval, Hmeas.
    rewrite sensor_loop_flag_sent by exact Hdue.
    destruct (_ >? _); split; intros; try discriminate; reflexivity.
  - rewrite calibrate_checkLetter_eval, Hmeas.
    rewrite sensor_loop_flag_sent by exact Hdue.
    unfold Sensor.shipped_THRESHOLD, Calibrate.shipped_THRESHOLD.
    destruct (Z.gtb_spec (eval (Sensor.checkLetter A2) ms) (Z.of_N 30));
      [|discriminate].
    intros _. destruct (Z.gtb_spec (eval (Sensor.checkLetter A2) ms) (Z.of_N 15));
      [reflexivity | lia].
  - intros Hrange. rewrite calibrate_checkLetter_eval, Hmeas.
    rewrite sensor_loop_flag_sent by exact Hdue.
    unfold Sensor.shipped_THRESHOLD, Calibrate.shipped_THRESHOLD.
    destruct (Z.gtb_spec (eval (Sensor.checkLetter A2) ms) (Z.of_N 30)); [lia|].
    destruct (Z.gtb_spec (eval (Sensor.checkLetter A2) ms) (Z.of_N 15));
      [split; reflexivity | lia].
Qed.

Lemma sketches_agree_witness :
  eval (Calibrate.checkLetter 2 Calibrate.shipped_THRESHOLD)
       (calibrate_bench [20; 21; 22]) = true
  /\ flag_sent (events_of (Sensor.loop 2 Sensor.shipped_THRESHOLD)
                          (sensor_bench [20; 21; 22] [true] 0 0)) = Some 0x00.
Proof.
  assert (Hsame : forall k, (k < 3)%nat ->
            adc (calibrate_bench [20; 21; 22]) k
            = adc (sensor_bench [20; 21; 22] [true] 0 0) k).
  { intros k Hk. reflexivity. }
  destruct (sketches_agree 2 (sensor_bench [20; 21; 22] [true] 0 0)
              (calibrate_bench [20; 21; 22]) eq_refl Hsame) as (_ & _ & Hgap).
  apply Hgap. vm_compute. split; [reflexivity | discriminate].
Defined.

(** ** Pins, sleep and time over a whole run *)

Lemma sensor_checkLetter_pins A2 (m : Machine Sensor.Globals) :
  pins (exec (Sensor.checkLetter A2) m)
  = <[Sensor.irdiode := LOW]> (<[Sensor.irled := LOW]>
      (<[Sensor.irdiode := HIGH]> (<[Sensor.irled := HIGH]> (pins m)))).
Proof. unfold exec. rewrite sensor_checkLetter_run. reflexivity. Qed.

Lemma sensor_loop_pins A2 T (m : Machine Sensor.Globals) :
  pins (exec (Sensor.loop A2 T) m)
  = if action m 0%nat
    then <[Sensor.irdiode := LOW]> (<[Sensor.irled := LOW]>
           (<[Sensor.irdiode := HIGH]> (<[Sensor.irled := HIGH]> (pins m))))
    else pins m.
Proof.
  destruct (action m 0%nat) eqn:Ha.
  - rewrite sensor_loop_due by exact Ha.
    rewrite sensor_checkLetter_pins. reflexivity.
  - rewrite sensor_loop_idle by exact Ha. reflexivity.
Qed.

Lemma pulse_levels (irled irdiode : Z) (p : gmap Z bool) :
  digitalLevel p irled = LOW ->
  digitalLevel p irdiode = LOW ->
  forall pin,
    digitalLevel (<[irdiode := LOW]> (<[irled := LOW]>
                    (<[irdiode := HIGH]> (<[irled := HIGH]> p)))) pin
    = digitalLevel p pin.
Proof.
  intros Hled Hdiode pin.
  destruct (decide (pin = irdiode)) as [->|H2].
  - rewrite digitalLevel_insert_eq. symmetry. exact Hdiode.
  - rewrite digitalLevel_insert_ne by congruence.
    destruct (decide (pin = irled)) as [->|H1].
    + rewrite digitalLevel_insert_eq. symmetry. exact Hled.
    + rewrite !digitalLevel_insert_ne by congruence. reflexivity.
Qed.

Lemma sensor_loop_levels A2 T (m : Machine Sensor.Globals) :
  digitalLevel (pins m) Sensor.irled = LOW ->
  digitalLevel (pins m) Sensor.irdiode = LOW ->
  forall pin,
    digitalLevel (pins (exec (Sensor.loop A2 T) m)) pin = digitalLevel (pins m) pin.
Proof.
  intros Hled Hdiode pin. rewrite sensor_loop_pins.
  destruct (action m 0%nat); [|reflexivity].
  apply pulse_levels; assumption.
Qed.

Lemma sensor_iterate_levels A2 T n :
  forall m : Machine Sensor.Globals,
    digitalLevel (pins m) Sensor.irled = LOW ->
    digitalLevel (pins m) Sensor.irdiode = LOW ->
    forall pin,
      digitalLevel (pins (exec (iterate n (Sensor.loop A2 T)) m)) pin
      = digitalLevel (pins m) pin.
Proof.
  induction n as [|n IH]; intros m Hled Hdiode pin.
  - reflexivity.
  - rewrite exec_iterate_S.
    pose proof (sensor_loop_levels A2 T m Hled Hdiode) as Hstep.
    rewrite IH by (rewrite Hstep; assumption). apply Hstep.
Qed.

(** A node powered on with the emitter and detector-power pins low has,
    after [setup] and after every wake cycle, the status LED low and every
    other pin at its power-on level: the node never goes to sleep with the
    emitter, the detector or the LED powered. *)
Theorem pins_low_when_asleep A2 T n pins0 adc0 action0 voltage0 temperature0 :
  digitalLevel pins0 Sensor.irled = LOW ->
  digitalLevel pins0 Sensor.irdiode = LOW ->
  forall pin,
    digitalLevel
      (pins (exec (Sensor.run A2 T n)
                  (Sensor.boot pins0 adc0 action0 voltage0 temperature0))) pin
    = if decide (pin = Sensor.statusled) then LOW else digitalLevel pins0 pin.
Proof.
  intros Hled Hdiode pin.
  rewrite sensor_run_exec.
  assert (Hsetup : forall p,
             digitalLevel
               (pins (exec Sensor.setup
                           (Sensor.boot pins0 adc0 action0 voltage0 temperature0))) p
             = if decide (p = Sensor.statusled) then LOW else digitalLevel pins0 p).
  { intros p. rewrite sensor_setup_run. cbn [pins Sensor.boot].
    destruct (decide (p = Sensor.statusled)) as [->|Hp].
    - apply digitalLevel_insert_eq.
    - rewrite !digitalLevel_insert_ne by congruence. reflexivity. }
  rewrite sensor_iterate_levels.
  - apply Hsetup.
  - rewrite Hsetup. rewrite decide_False by discriminate. exact Hled.
  - rewrite Hsetup. rewrite decide_False by discriminate. exact Hdiode.
Qed.

Lemma pins_low_when_asleep_witness :
  digitalLevel
    (pins (exec (Sensor.run 2 Sensor.shipped_THRESHOLD 3)
                (Sensor.boot ∅ (stream_of [100; 101; 102] 0)
                             (stream_of [false; true; false] false)
                             (stream_of [] 3300) (stream_of [] 21))))
    Sensor.irled
  = LOW.
Proof.
  assert (Hled : digitalLevel ∅ Sensor.irled = LOW) by reflexivity.
  assert (Hdiode : digitalLevel ∅ Sensor.irdiode = LOW) by reflexivity.
  rewrite (pins_low_when_asleep 2 Sensor.shipped_THRESHOLD 3 ∅
             (stream_of [100; 101; 102] 0) (stream_of [false; true; false] false)
             (stream_of [] 3300) (stream_of [] 21) Hled Hdiode Sensor.irled).
  reflexivity.
Defined.

Lemma writes_to_app pin l1 l2 :
  writes_to pin (l1 ++ l2) = writes_to pin l1 ++ writes_to pin l2.
Proof. apply omap_app. Qed.

Lemma sensor_loop_writes A2 T pin (m : Machine Sensor.Globals) :
  writes_to pin (events_of (Sensor.loop A2 T) m)
  = if action m 0%nat
    then writes_to pin [EDigitalWrite Sensor.irled HIGH;
                        EDigitalWrite Sensor.irdiode HIGH;
                        EDigitalWrite Sensor.irled LOW;
                        EDigitalWrite Sensor.irdiode LOW]
    else [].
Proof.
  destruct (action m 0%nat) eqn:Ha.
  - rewrite sensor_loop_due_events by exact Ha. cbv zeta.
    rewrite sensor_checkLetter_events. reflexivity.
  - rewrite sensor_loop_idle_events by exact Ha. reflexivity.
Qed.

Lemma sensor_iterate_writes A2 T pin n :
  forall m : Machine Sensor.Globals,
    writes_to pin (log (exec (iterate n (Sensor.loop A2 T)) m))
    = writes_to pin (log m)
      ++ concat (replicate (due_count (action m) n)
                   (writes_to pin [EDigitalWrite Sensor.irled HIGH;
                                   EDigitalWrite Sensor.irdiode HIGH;
                                   EDigitalWrite Sensor.irled LOW;
                                   EDigitalWrite Sensor.irdiode LOW])).
Proof.
  induction n as [|n IH]; intros m.
  - cbn. rewrite app_nil_r. reflexivity.
  - rewrite exec_iterate_S, IH. clear IH.
    rewrite sensor_loop_action, sensor_loop_log, writes_to_app, sensor_loop_writes.
    cbn [due_count]. rewrite <- app_assoc. f_equal.
    destruct (action m 0%nat); reflexivity.
Qed.

(** Over a whole run the status LED is written exactly twice, high then
    low, by [setup]: no wake cycle touches it. The emitter and the
    detector-power pin are each pulsed high then low exactly once per
    transmit, and no other pin is ever written. *)
Theorem pin_writes_of_run A2 T n pins0 adc0 action0 voltage0 temperature0 :
  let l := log (exec (Sensor.run A2 T n)
                     (Sensor.boot pins0 adc0 action0 voltage0 temperature0)) in
  let transmits := due_count action0 n in
  writes_to Sensor.statusled l = [HIGH; LOW]
  /\ writes_to Sensor.irled l = concat (replicate transmits [HIGH; LOW])
  /\ writes_to Sensor.irdiode l = concat (replicate transmits [HIGH; LOW])
  /\ (forall pin, pin <> Sensor.statusled -> pin <> Sensor.irled ->
                  pin <> Sensor.irdiode -> writes_to pin l = []).
Proof.
  cbv zeta. rewrite sensor_run_exec.
  assert (Hgen : forall pin,
    writes_to pin
      (log (exec (iterate n (Sensor.loop A2 T))
             (exec Sensor.setup
                (Sensor.boot pins0 adc0 action0 voltage0 temperature0))))
    = writes_to pin [EDigitalWrite Sensor.statusled HIGH;
                     EDigitalWrite Sensor.statusled LOW]
      ++ concat (replicate (due_count action0 n)
                   (writes_to pin [EDigitalWrite Sensor.irled HIGH;
                                   EDigitalWrite Sensor.irdiode HIGH;
                                   EDigitalWrite Sensor.irled LOW;
                                   EDigitalWrite Sensor.irdiode LOW]))).
  { intros pin. rewrite sensor_iterate_writes, sensor_setup_run.
    cbn [log action Sensor.boot app]. reflexivity. }
  assert (Hnil : forall k, concat (replicate k (@nil bool)) = []).
  { intros k. induction k as [|k IHk]; [reflexivity | exact IHk]. }
  split; [|split; [|split]].
  - rewrite Hgen. cbn. apply (f_equal (fun t => HIGH :: LOW :: t)), Hnil.
  - rewrite Hgen. reflexivity.
  - rewrite Hgen. reflexivity.
  - intros pin H1 H2 H3. rewrite Hgen. unfold writes_to. cbn.
    rewrite !decide_False by congruence. apply Hnil.
Qed.

Lemma count_events_app f l1 l2 :
  count_events f (l1 ++ l2) = (count_events f l1 + count_events f l2)%nat.
Proof. unfold count_events. rewrite List.filter_app, length_app. reflexivity. Qed.

Lemma last_or_cons prev e l : last_or prev (e :: l) = last_or (Some e) l.
Proof.
  destruct l as [|e0 l]; [reflexivity|].
  unfold last_or. change (last (e :: e0 :: l)) with (last (e0 :: l)).
  destruct (last (e0 :: l)) eqn:E; [reflexivity|].
  apply last_None in E. discriminate E.
Qed.

Lemma rearmed_before_sleep_app ticks l1 :
  forall prev l2,
    rearmed_before_sleep ticks prev (l1 ++ l2)
    = rearmed_before_sleep ticks prev l1
      && rearmed_before_sleep ticks (last_or prev l1) l2.
Proof.
  induction l1 as [|e l1 IH]; intros prev l2.
  - reflexivity.
  - rewrite last_or_cons. cbn [app rearmed_before_sleep].
    rewrite IH, andb_assoc. reflexivity.
Qed.

Lemma sensor_loop_rearmed A2 T prev (m : Machine Sensor.Globals) :
  rearmed_before_sleep Sensor.atsleep prev (events_of (Sensor.loop A2 T) m) = true.
Proof.
  destruct (action m 0%nat) eqn:Ha.
  - rewrite sensor_loop_due_events by exact Ha. cbv zeta.
    rewrite sensor_checkLetter_events. reflexivity.
  - rewrite sensor_loop_idle_events by exact Ha. reflexivity.
Qed.

Lemma sensor_loop_counts A2 T (m : Machine Sensor.Globals) :
  count_events is_gotoSleep (events_of (Sensor.loop A2 T) m) = 1%nat
  /\ count_events is_checkAction (events_of (Sensor.loop A2 T) m) = 1%nat
  /\ exists l, events_of (Sensor.loop A2 T) m
               = ECheckAction (action m 0%nat) :: l
                 ++ [ESetSleeptime Sensor.atsleep; EGotoSleep].
Proof.
  destruct (action m 0%nat) eqn:Ha.
  - rewrite sensor_loop_due_events by exact Ha. cbv zeta.
    rewrite sensor_checkLetter_events.
    split; [reflexivity|]. split; [reflexivity|].
    eexists (_ :: _ :: _ :: _ :: _ :: _ :: _ :: _ :: _ :: _ :: _ :: _ :: _ :: [_]).
    reflexivity.
  - rewrite sensor_loop_idle_events by exact Ha.
    split; [reflexivity|]. split; [reflexivity|]. exists []. reflexivity.
Qed.

Lemma sensor_iterate_sleep A2 T n :
  forall m : Machine Sensor.Globals,
    let l := log (exec (iterate n (Sensor.loop A2 T)) m) in
    count_events is_gotoSleep l = (count_events is_gotoSleep (log m) + n)%nat
    /\ count_events is_checkAction l = (count_events is_checkAction (log m) + n)%nat
    /\ (rearmed_before_sleep Sensor.atsleep None (log m) = true ->
        rearmed_before_sleep Sensor.atsleep None l = true).
Proof.
  induction n as [|n IH]; intros m; cbv zeta.
  - cbn [iterate]. unfold exec. cbn. rewrite !Nat.add_0_r. auto.
  - rewrite exec_iterate_S.
    destruct (IH (exec (Sensor.loop A2 T) m)) as (Hs & Hc & Hr). cbv zeta in *.
    rewrite Hs, Hc. clear Hs Hc.
    rewrite sensor_loop_log in *. rewrite !count_events_app.
    destruct (sensor_loop_counts A2 T m) as (-> & -> & _).
    split; [lia|]. split; [lia|].
    intros Hm. apply Hr.
    rewrite rearmed_before_sleep_app, Hm, sensor_loop_rearmed. reflexivity.
Qed.

(** Every wake cycle, due or not, asks the scheduler once and ends by
    re-arming the sleep timer with 1800 ticks and going to sleep: after
    [n] wake cycles from power-on the log holds exactly [n] [checkAction]
    and [n] [gotoSleep] calls, each [gotoSleep] comes directly after
    [setSleeptime(1800)], and the last call of a run of at least one cycle
    is [gotoSleep]. *)
Theorem sleep_rearmed_every_cycle A2 T n pins0 adc0 action0 voltage0 temperature0 :
  let l := log (exec (Sensor.run A2 T n)
                     (Sensor.boot pins0 adc0 action0 voltage0 temperature0)) in
  count_events is_gotoSleep l = n
  /\ count_events is_checkAction l = n
  /\ rearmed_before_sleep 1800 None l = true
  /\ last l = match n with O => Some (EDigitalWrite Sensor.statusled LOW)
                         | S _ => Some EGotoSleep end.
Proof.
  cbv zeta. rewrite sensor_run_exec.
  set (m0 := exec Sensor.setup _).
  assert (Hlog0 : log m0 = [ESetSleeptime Sensor.atsleep; ERfmInit; ESetKeys;
               EPinMode Sensor.irled OUTPUT; EPinMode Sensor.statusled OUTPUT;
               EPinMode Sensor.irdiode OUTPUT;
               EDigitalWrite Sensor.statusled HIGH; EDelay 10;
               EDigitalWrite Sensor.statusled LOW]).
  { subst m0. rewrite sensor_setup_run. reflexivity. }
  destruct (sensor_iterate_sleep A2 T n m0) as (Hs & Hc & Hr). cbv zeta in *.
  rewrite Hlog0 in Hs, Hc, Hr.
  split; [exact Hs|]. split; [exact Hc|]. split; [apply Hr; reflexivity|].
  destruct n as [|n].
  - cbn [iterate]. unfold exec at 1. cbn [snd mret M_ret]. rewrite Hlog0. reflexivity.
  - rewrite exec_iterate_snoc, sensor_loop_log.
    destruct (sensor_loop_counts A2 T (exec (iterate n (Sensor.loop A2 T)) m0))
      as (_ & _ & l & ->).
    replace (ECheckAction (action (exec (iterate n (Sensor.loop A2 T)) m0) 0%nat)
               :: l ++ [ESetSleeptime Sensor.atsleep; EGotoSleep])
      with ((ECheckAction (action (exec (iterate n (Sensor.loop A2 T)) m0) 0%nat)
               :: l ++ [ESetSleeptime Sensor.atsleep]) ++ [EGotoSleep]).
    + rewrite app_assoc. apply last_snoc.
    + cbn [app]. rewrite <- app_assoc. reflexivity.
Qed.

Lemma total_delay_app l1 l2 :
  total_delay (l1 ++ l2) = total_delay l1 + total_delay l2.
Proof.
  induction l1 as [|e l1 IH]; [reflexivity|].
  cbn [app total_delay foldr] in *. fold (total_delay (l1 ++ l2)).
  fold (total_delay l1). rewrite IH. lia.
Qed.

Lemma sensor_loop_delay A2 T (m : Machine Sensor.Globals) :
  total_delay (events_of (Sensor.loop A2 T) m)
  = if action m 0%nat then 100 else 0.
Proof.
  destruct (action m 0%nat) eqn:Ha.
  - rewrite sensor_loop_due_events by exact Ha. cbv zeta.
    rewrite sensor_checkLetter_events. reflexivity.
  - rewrite sensor_loop_idle_events by exact Ha. reflexivity.
Qed.

Lemma sensor_iterate_delay A2 T n :
  forall m : Machine Sensor.Globals,
    total_delay (log (exec (iterate n (Sensor.loop A2 T)) m))
    = total_delay (log m) + 100 * Z.of_nat (due_count (action m) n).
Proof.
  induction n as [|n IH]; intros m.
  - cbn [iterate due_count]. unfold exec. cbn [snd mret M_ret]. lia.
  - rewrite exec_iterate_S, IH. clear IH.
    rewrite sensor_loop_action, sensor_loop_log, total_delay_app, sensor_loop_delay.
    cbn [due_count]. destruct (action m 0%nat); lia.
Qed.

(** The time the node spends in [delay]: 10 ms for the blink in [setup]
    and 100 ms for each transmit; a wake cycle that is not due spends
    none. *)
Theorem awake_delay_of_run A2 T n pins0 adc0 action0 voltage0 temperature0 :
  total_delay (log (exec (Sensor.run A2 T n)
                         (Sensor.boot pins0 adc0 action0 voltage0 temperature0)))
  = 10 + 100 * Z.of_nat (due_count action0 n).
Proof.
  rewrite sensor_run_exec, sensor_iterate_delay, sensor_setup_run.
  cbn [log action Sensor.boot app]. reflexivity.
Qed.

(** ** Frame counters as sequence numbers *)

Lemma counters_distinct_iff (t : nat) :
  NoDup (map (fun k => Z.of_nat k mod 2 ^ 16) (seq 0 t)) <-> Z.of_nat t <= 65536.
Proof.
  split.
  - intros Hnd. destruct (Z_le_gt_dec (Z.of_nat t) 65536) as [Hle|Hgt]; [exact Hle|].
    exfalso. rewrite NoDup_alt in Hnd.
    assert (H0 : map (fun k => Z.of_nat k mod 2 ^ 16) (seq 0 t) !! 0%nat = Some 0).
    { change (map ?f ?l) with (f <$> l).
      rewrite list_lookup_fmap, lookup_seq_lt by lia. reflexivity. }
    assert (H1 : map (fun k => Z.of_nat k mod 2 ^ 16) (seq 0 t)
                 !! Z.to_nat 65536 = Some 0).
    { change (map ?f ?l) with (f <$> l).
      rewrite list_lookup_fmap, lookup_seq_lt by lia.
      cbn [fmap option_fmap option_map Nat.add]. rewrite Z2Nat.id by lia.
      reflexivity. }
    pose proof (Hnd _ _ _ H0 H1) as E. lia.
  - intros Hle.
    rewrite (map_ext_in _ Z.of_nat).
    + change (map ?f ?l) with (f <$> l).
      apply NoDup_fmap_2; [intros a b E; lia | apply NoDup_seq].
    + intros k Hk. apply in_seq in Hk. apply Z.mod_small. lia.
Qed.

(** The frame counters sent since power-on are pairwise distinct exactly
    as long as at most 65536 frames have been sent; with the next frame
    the counter 0 is used a second time. *)
Theorem frame_counters_distinct A2 T n pins0 adc0 action0 voltage0 temperature0 :
  NoDup (map snd (frames (log (exec (Sensor.run A2 T n)
                     (Sensor.boot pins0 adc0 action0 voltage0 temperature0)))))
  <-> Z.of_nat (due_count action0 n) <= 65536.
Proof.
  rewrite <- counters_distinct_iff.
  rewrite sensor_run_exec.
  set (m0 := exec Sensor.setup _).
  assert (Hm0 : m0 = exec Sensor.setup
                       (Sensor.boot pins0 adc0 action0 voltage0 temperature0))
    by reflexivity.
  rewrite sensor_setup_run in Hm0.
  destruct (frame_counter_iterate A2 T n m0) as [_ Hf].
  { rewrite Hm0. cbn. lia. }
  rewrite Hf. rewrite Hm0. cbn [log globals action Sensor.boot].
  rewrite frames_app. cbn [app map].
  reflexivity.
Qed.

(** ** The payload array *)

(** Nothing of what the payload array holds when it is allocated reaches
    the radio or any other part of the machine: the block that samples and
    sends behaves the same for any two initial contents of the seven
    cells. *)
Theorem initial_array_contents_irrelevant A2 T (Data Data' : list Z)
        (m : Machine Sensor.Globals) :
  length Data = 7%nat -> length Data' = 7%nat ->
  Sensor.sample_and_send A2 T Data m = Sensor.sample_and_send A2 T Data' m.
Proof.
  intros H H'. rewrite !sample_and_send_run by assumption. reflexivity.
Qed.

Lemma initial_array_contents_irrelevant_witness :
  Sensor.sample_and_send 2 Sensor.shipped_THRESHOLD Sensor.fresh_Data
                         (sensor_bench [45; 46; 47] [true] 3300 21)
  = Sensor.sample_and_send 2 Sensor.shipped_THRESHOLD [1; 2; 3; 4; 5; 6; 7]
                           (sensor_bench [45; 46; 47] [true] 3300 21).
Proof.
  apply (initial_array_contents_irrelevant 2 Sensor.shipped_THRESHOLD
           Sensor.fresh_Data [1; 2; 3; 4; 5; 6; 7]
           (sensor_bench [45; 46; 47] [true] 3300 21)); reflexivity.
Defined.

(** ** The calibration sketch as a whole *)

Lemma calibrate_loop_run A2 T (m : Machine unit) :
  exec (Calibrate.loop A2 T) m =
  mkMachine (globals m)
    (<[Calibrate.statusled := sample_at (adc m) 0 >? Z.of_N T]>
       (<[Calibrate.irdiode := LOW]> (<[Calibrate.irled := LOW]>
          (<[Calibrate.irdiode := HIGH]> (<[Calibrate.irled := HIGH]> (pins m))))))
    (log m ++ [EDigitalWrite Calibrate.irled HIGH; EDigitalWrite Calibrate.irdiode HIGH;
               EDelay 15; EAnalogRead A2 (adc m 0%nat);
               EDelay 15; EAnalogRead A2 (adc m 1%nat);
               EDelay 15; EAnalogRead A2 (adc m 2%nat);
               EDigitalWrite Calibrate.irled LOW; EDigitalWrite Calibrate.irdiode LOW;
               EDigitalWrite Calibrate.statusled (sample_at (adc m) 0 >? Z.of_N T);
               EDelay 100])
    (fun k => adc m (S (S (S k)))) (action m) (voltage m) (temperature m).
Proof.
  unfold Calibrate.loop, exec.
  cbv beta iota zeta delta [mbind M_bind].
  rewrite calibrate_checkLetter_run.
  unfold exec. rewrite calibrate_checkLetter_measure_run.
  rewrite sample_at_0.
  destruct m as [g p l a ac v t].
  cbv beta iota zeta delta [snd globals pins log adc action voltage temperature].
  destruct (_ >? _); cbv beta iota zeta delta [Bool.eqb]; run_machine;
    rewrite <- !app_assoc; reflexivity.
Qed.

Lemma calibrate_setup_run (m : Machine unit) :
  exec Calibrate.setup m =
  mkMachine (globals m)
    (<[Calibrate.statusled := LOW]> (<[Calibrate.statusled := HIGH]> (pins m)))
    (log m ++ [EPinMode Calibrate.irled OUTPUT; EPinMode Calibrate.irdiode OUTPUT;
               EPinMode Calibrate.statusled OUTPUT;
               EDigitalWrite Calibrate.statusled HIGH; EDelay 500;
               EDigitalWrite Calibrate.statusled LOW; EDelay 500])
    (adc m) (action m) (voltage m) (temperature m).
Proof.
  destruct m as [g p l a ac v t].
  unfold Calibrate.setup. run_machine. rewrite <- !app_assoc. reflexivity.
Qed.

Lemma calibrate_run_exec A2 T n (m : Machine unit) :
  exec (calibrate_run A2 T n) m
  = exec (iterate n (Calibrate.loop A2 T)) (exec Calibrate.setup m).
Proof.
  unfold calibrate_run, exec. cbv beta iota zeta delta [mbind M_bind].
  destruct (Calibrate.setup m) as [u m']. reflexivity.
Qed.

(** What [n] rounds of the calibration loop leave behind: the LED was
    written once per round with that round's classification, 145 ms of
    delay per round were spent, the two sampler pins are low, and nothing
    but the three pins was written. *)
Lemma calibrate_iterate A2 T n :
  forall m : Machine unit,
    let m' := exec (iterate n (Calibrate.loop A2 T)) m in
    writes_to Calibrate.statusled (log m')
    = writes_to Calibrate.statusled (log m)
      ++ map (fun k => sample_at (adc m) k >? Z.of_N T) (seq 0 n)
    /\ total_delay (log m') = total_delay (log m) + 145 * Z.of_nat n
    /\ readings (log m') = readings (log m) ++ map (adc m) (seq 0 (3 * n))
    /\ digitalLevel (pins m') Calibrate.statusled
       = match n with
         | O => digitalLevel (pins m) Calibrate.statusled
         | S k => sample_at (adc m) k >? Z.of_N T
         end.
Proof.
  induction n as [|n IH]; intros m; cbv zeta.
  - cbn [iterate seq map]. unfold exec. cbn [snd mret M_ret].
    rewrite !app_nil_r. repeat split. lia.
  - rewrite exec_iterate_S.
    destruct (IH (exec (Calibrate.loop A2 T) m)) as (Hw & Hd & Hr & Hl).
    cbv zeta in *. rewrite Hw, Hd, Hr, Hl. clear IH Hw Hd Hr Hl.
    rewrite calibrate_loop_run.
    cbn [log adc pins].
    rewrite writes_to_app, total_delay_app, readings_app.
    split; [|split; [|split]].
    + rewrite <- app_assoc. f_equal. cbn [seq map].
      rewrite <- seq_shift, map_map.
      change (writes_to Calibrate.statusled _)
        with [sample_at (adc m) 0 >? Z.of_N T].
      cbn [app]. f_equal. apply map_ext. intros k.
      rewrite sample_at_S. reflexivity.
    + change (total_delay [_; _; _; _; _; _; _; _; _; _; _; _]) with 145. lia.
    + rewrite <- app_assoc. f_equal.
      replace (3 * S n)%nat with (S (S (S (3 * n)))) by lia.
      cbn [seq map]. rewrite <- !seq_shift, !map_map. reflexivity.
    + destruct n as [|k].
      * apply digitalLevel_insert_eq.
      * apply (f_equal (fun x => x >? Z.of_N T)), sample_at_S.
Qed.

Lemma calibrate_iterate_grows A2 T n :
  forall m : Machine unit,
    exists l, log (exec (iterate n (Calibrate.loop A2 T)) m) = log m ++ l.
Proof.
  induction n as [|n IH]; intros m.
  - exists []. cbn [iterate]. unfold exec. cbn [snd mret M_ret].
    rewrite app_nil_r. reflexivity.
  - rewrite exec_iterate_S.
    destruct (IH (exec (Calibrate.loop A2 T) m)) as [l ->].
    rewrite calibrate_loop_run. cbn [log]. rewrite <- app_assoc. eauto.
Qed.

Lemma calibrate_run_grows A2 T n (m : Machine unit) :
  exists l, log (exec (calibrate_run A2 T n) m) = log m ++ l.
Proof.
  rewrite calibrate_run_exec.
  destruct (calibrate_iterate_grows A2 T n (exec Calibrate.setup m)) as [l ->].
  rewrite calibrate_setup_run. cbn [log]. rewrite <- app_assoc. eauto.
Qed.

(** The status LED of the calibration board shows the latest sample and
    nothing else: after [setup] it is low, and after each round it is on
    exactly when that round's measurement exceeds the threshold, whatever
    the earlier rounds measured. The levels written to it over a run are
    the blink of [setup] followed by one classification per round, each of
    a fresh triple of ADC values. *)
Theorem calibration_led_shows_latest_sample A2 T n (m : Machine unit) :
  let m' := exec (calibrate_run A2 T n) m in
  writes_to Calibrate.statusled (events_of (calibrate_run A2 T n) m)
  = [HIGH; LOW] ++ map (fun k => sample_at (adc m) k >? Z.of_N T) (seq 0 n)
  /\ digitalLevel (pins m') Calibrate.statusled
     = match n with
       | O => LOW
       | S k => sample_at (adc m) k >? Z.of_N T
       end
  /\ readings (events_of (calibrate_run A2 T n) m) = map (adc m) (seq 0 (3 * n)).
Proof.
  cbv zeta.
  destruct (calibrate_iterate A2 T n (exec Calibrate.setup m)) as (Hw & _ & Hr & Hl).
  cbv zeta in *. rewrite <- calibrate_run_exec in Hw, Hr, Hl.
  rewrite calibrate_setup_run in Hw, Hr, Hl. cbn [log adc pins] in Hw, Hr, Hl.
  rewrite writes_to_app in Hw. rewrite readings_app in Hr.
  assert (Hlog : log (exec (calibrate_run A2 T n) m)
                 = log m ++ events_of (calibrate_run A2 T n) m).
  { destruct (calibrate_run_grows A2 T n m) as [l Hgrow].
    exact (log_exec_events _ _ _ Hgrow). }
  rewrite Hlog, writes_to_app in Hw. rewrite Hlog, readings_app in Hr.
  split; [|split].
  - rewrite <- app_assoc in Hw. apply app_inv_head in Hw. rewrite Hw.
    reflexivity.
  - rewrite Hl. destruct n; [|reflexivity].
    apply digitalLevel_insert_eq.
  - rewrite <- app_assoc in Hr. apply app_inv_head in Hr. rewrite Hr.
    reflexivity.
Qed.

(** One round of the calibration loop takes 145 ms of delay (three
    samples 15 ms apart and the 100 ms pause), after the second of blinking
    in [setup]. *)
Theorem calibration_round_time A2 T n (m : Machine unit) :
  total_delay (log (exec (calibrate_run A2 T n) m))
  = total_delay (log m) + 1000 + 145 * Z.of_nat n.
Proof.
  rewrite calibrate_run_exec.
  destruct (calibrate_iterate A2 T n (exec Calibrate.setup m)) as (_ & Hd & _).
  cbv zeta in Hd. rewrite Hd, calibrate_setup_run. cbn [log].
  rewrite total_delay_app. change (total_delay [_; _; _; _; _; _; _]) with 1000. lia.
Qed.
